(** * kitops: source resolution and HuggingFace repository-reference parsing

    A shallow embedding of
      - [pkg/lib/hf/parse.go]  ([ParseHuggingFaceRepo], [isValidRepoFormat]),
      - the [kitinit] command  ([detectRemoteRepo], [isLocalPath],
        [buildPackageFromRepo]),
    together with the fragments of Go's [strings], [net/url] and [os]
    packages that this code calls.

    Go strings are byte sequences; they are modelled by [string], whose
    characters ([ascii]) are exactly the 256 byte values. *)

From Stdlib Require Import String Ascii List Bool Arith Lia.
Import ListNotations.
Open Scope string_scope.
Open Scope bool_scope.

(* ================================================================== *)
(** ** Go's [strings] package (the functions the sources call) *)
(* ================================================================== *)

Module strings.

(** [strings.HasPrefix(s, prefix)] *)
Definition HasPrefix (s prefix : string) : bool := String.prefix prefix s.

(** [s[n:]] for [n <= len(s)] *)
Fixpoint drop (n : nat) (s : string) : string :=
  match n, s with
  | S n', String _ s' => drop n' s'
  | _, _ => s
  end.

(** [s[:n]] for [n <= len(s)] *)
Fixpoint take (n : nat) (s : string) : string :=
  match n, s with
  | S n', String c s' => String c (take n' s')
  | _, _ => EmptyString
  end.

(** [strings.TrimPrefix(s, prefix)] *)
Definition TrimPrefix (s prefix : string) : string :=
  if HasPrefix s prefix then drop (String.length prefix) s else s.

(** [strings.HasSuffix(s, suffix)] *)
Definition HasSuffix (s suffix : string) : bool :=
  (String.length suffix <=? String.length s)%nat
  && (drop (String.length s - String.length suffix) s =? suffix).

(** [strings.Index(s, substr)]; [None] stands for Go's [-1]. *)
Fixpoint Index (s substr : string) : option nat :=
  if String.prefix substr s then Some 0
  else match s with
       | EmptyString => None
       | String _ s' => option_map S (Index s' substr)
       end.

(** [strings.Contains(s, substr)] *)
Fixpoint Contains (s substr : string) : bool :=
  if String.prefix substr s then true
  else match s with
       | EmptyString => false
       | String _ s' => Contains s' substr
       end.

(** [strings.IndexByte(s, c)] *)
Fixpoint IndexByte (s : string) (c : ascii) : option nat :=
  match s with
  | EmptyString => None
  | String a s' => if Ascii.eqb a c then Some 0 else option_map S (IndexByte s' c)
  end.

(** [strings.LastIndexByte(s, c)] (also [strings.LastIndex] with a
    one-byte separator). *)
Fixpoint LastIndexByte (s : string) (c : ascii) : option nat :=
  match s with
  | EmptyString => None
  | String a s' =>
      match LastIndexByte s' c with
      | Some i => Some (S i)
      | None => if Ascii.eqb a c then Some 0 else None
      end
  end.

(** [strings.Count(s, sep)] for a one-byte [sep]. *)
Fixpoint Count (s : string) (sep : ascii) : nat :=
  match s with
  | EmptyString => 0
  | String a s' => (if Ascii.eqb a sep then 1 else 0) + Count s' sep
  end.

(** [strings.Cut(s, sep)] for a one-byte [sep]:
    [(before, after, found)]. *)
Definition Cut (s : string) (sep : ascii) : string * string * bool :=
  match IndexByte s sep with
  | Some i => (take i s, drop (S i) s, true)
  | None => (s, EmptyString, false)
  end.

(** [strings.Split(s, sep)] for a one-byte separator.  Every call in
    the sources passes the separator ["/"].  As in Go the result is
    never empty: [Split("", "/")] is the one-element slice [[""]]. *)
Fixpoint Split (s : string) (sep : ascii) : list string :=
  match s with
  | EmptyString => [EmptyString]
  | String a s' =>
      if Ascii.eqb a sep then EmptyString :: Split s' sep
      else match Split s' sep with
           | h :: t => String a h :: t
           | [] => [String a EmptyString]
           end
  end.

(** membership of a byte in a cutset *)
Fixpoint inCutset (c : ascii) (cutset : string) : bool :=
  match cutset with
  | EmptyString => false
  | String a cs => Ascii.eqb a c || inCutset c cs
  end.

(** [strings.TrimLeft(s, cutset)] *)
Fixpoint TrimLeft (s cutset : string) : string :=
  match s with
  | EmptyString => EmptyString
  | String a s' => if inCutset a cutset then TrimLeft s' cutset else s
  end.

(** [strings.TrimRight(s, cutset)] *)
Fixpoint TrimRight (s cutset : string) : string :=
  match s with
  | EmptyString => EmptyString
  | String a s' =>
      match TrimRight s' cutset with
      | EmptyString => if inCutset a cutset then EmptyString else String a EmptyString
      | r => String a r
      end
  end.

(** [strings.Trim(s, cutset)]: for an ASCII cutset Go trims the right
    end first, then the left end. *)
Definition Trim (s cutset : string) : string :=
  TrimLeft (TrimRight s cutset) cutset.

(** [strings.Join(elems, sep)] *)
Definition Join (elems : list string) (sep : string) : string :=
  String.concat sep elems.

(** ASCII lower-casing of one byte, and [strings.ToLower] on ASCII
    input (the only use is on URL schemes, which are ASCII). *)
Definition lowerByte (c : ascii) : ascii :=
  let n := nat_of_ascii c in
  if ((65 <=? n) && (n <=? 90))%nat then ascii_of_nat (n + 32) else c.

Fixpoint ToLower (s : string) : string :=
  match s with
  | EmptyString => EmptyString
  | String a s' => String (lowerByte a) (ToLower s')
  end.

End strings.

(** Go's slice expression [l[lo:hi]] for [lo <= hi <= len(l)]. *)
Definition slice {A : Type} (lo hi : nat) (l : list A) : list A :=
  firstn (hi - lo) (skipn lo l).

(* ================================================================== *)
(** ** Go's [net/url] package: [Parse] and the [Hostname] method *)
(* ================================================================== *)

(** [net/url] belongs to Go's standard library, not to the repository.
    The general results below are stated for an arbitrary parser of type
    [string -> url.URL + url.Error]; this module gives the parser the
    program is linked with, following the library's [Parse], [parse],
    [getScheme], [parseAuthority], [parseHost], [unescape] and
    [splitHostPort] (Go 1.22).  The hint fields [RawPath] and
    [RawFragment], which no caller here reads, are left out. *)
Module url.
Import strings.

Inductive encoding : Set :=
| encodePath | encodeHost | encodeZone | encodeUserPassword | encodeFragment.

(** The errors [parse] can produce. *)
Inductive ParseError : Set :=
| InvalidControlChar          (* "net/url: invalid control character in URL" *)
| EmptyURL                    (* "empty url" *)
| MissingProtocolScheme       (* "missing protocol scheme" *)
| InvalidURIForRequest        (* "invalid URI for request" *)
| FirstSegmentColon           (* "first path segment in URL cannot contain colon" *)
| EscapeError (s : string)    (* EscapeError(s) *)
| InvalidHostError (s : string)
| MissingBracket              (* "missing ']' in host" *)
| InvalidPort (colonPort : string)
| InvalidUserinfo.            (* "net/url: invalid userinfo" *)

(** [url.Error{Op, URL, Err}] *)
Record Error : Set := mkError { Op : string; Error_URL : string; Err : ParseError }.

Record Userinfo : Set :=
  mkUserinfo { username : string; password : string; passwordSet : bool }.

Record URL : Set := mkURL {
  Scheme : string;
  Opaque : string;
  User : option Userinfo;
  Host : string;
  Path : string;
  OmitHost : bool;
  ForceQuery : bool;
  RawQuery : string;
  Fragment : string
}.

Definition inRange (lo hi : nat) (c : ascii) : bool :=
  let n := nat_of_ascii c in ((lo <=? n) && (n <=? hi))%nat.

Definition isLower (c : ascii) : bool := inRange 97 122 c.   (* 'a'..'z' *)
Definition isUpper (c : ascii) : bool := inRange 65 90 c.    (* 'A'..'Z' *)
Definition isDigit (c : ascii) : bool := inRange 48 57 c.    (* '0'..'9' *)

Definition ishex (c : ascii) : bool :=
  isDigit c || inRange 97 102 c || inRange 65 70 c.

Definition unhex (c : ascii) : nat :=
  let n := nat_of_ascii c in
  if isDigit c then n - 48
  else if inRange 97 102 c then n - 97 + 10
  else if inRange 65 70 c then n - 65 + 10
  else 0.

(** [shouldEscape(c, encodeHost)]: the bytes that may not appear in a
    host.  ["034"] is the double quote. *)
Definition shouldEscapeHost (c : ascii) : bool :=
  if isLower c || isUpper c || isDigit c then false
  else if inCutset c "!$&'()*+,;=:[]<>" || Ascii.eqb c "034" then false
  else if inCutset c "-_.~" then false
  else true.

Definition isHostMode (m : encoding) : bool :=
  match m with encodeHost => true | _ => false end.
Definition isZoneMode (m : encoding) : bool :=
  match m with encodeZone => true | _ => false end.

(** [unescape(s, mode)].  Go validates in a first pass and builds the
    result in a second; the first error from the left is the one
    reported, which is what this single pass returns. *)
Fixpoint unescape (s : string) (mode : encoding) : string + ParseError :=
  match s with
  | EmptyString => inl EmptyString
  | String c rest =>
      if Ascii.eqb c "%" then
        match rest with
        | String h1 (String h2 rest') =>
            let v := ascii_of_nat (unhex h1 * 16 + unhex h2) in
            if negb (ishex h1) || negb (ishex h2) then inr (EscapeError (take 3 s))
            else if isHostMode mode && (unhex h1 <? 8)%nat && negb (take 3 s =? "%25")
                 then inr (EscapeError (take 3 s))
            else if isZoneMode mode && negb (take 3 s =? "%25")
                    && negb (Ascii.eqb v " ") && shouldEscapeHost v
                 then inr (EscapeError (take 3 s))
            else match unescape rest' mode with
                 | inl t => inl (String v t)
                 | inr e => inr e
                 end
        | _ => inr (EscapeError (take 3 s))
        end
      else if (isHostMode mode || isZoneMode mode)
              && (nat_of_ascii c <? 128)%nat && shouldEscapeHost c
           then inr (InvalidHostError (String c EmptyString))
      else match unescape rest mode with
           | inl t => inl (String c t)
           | inr e => inr e
           end
  end.

(** [stringContainsCTLByte(s)] *)
Fixpoint stringContainsCTLByte (s : string) : bool :=
  match s with
  | EmptyString => false
  | String b s' =>
      (nat_of_ascii b <? 32)%nat || (nat_of_ascii b =? 127)%nat
      || stringContainsCTLByte s'
  end.

(** The loop of [getScheme]: [i] is the index of the head of [s] in
    [rawURL]. *)
Fixpoint getSchemeLoop (rawURL : string) (i : nat) (s : string)
  : (string * string) + ParseError :=
  match s with
  | EmptyString => inl (EmptyString, rawURL)
  | String c s' =>
      if isLower c || isUpper c then getSchemeLoop rawURL (S i) s'
      else if isDigit c || inCutset c "+-." then
        if (i =? 0)%nat then inl (EmptyString, rawURL)
        else getSchemeLoop rawURL (S i) s'
      else if Ascii.eqb c ":" then
        if (i =? 0)%nat then inr MissingProtocolScheme
        else inl (take i rawURL, s')
      else inl (EmptyString, rawURL)
  end.

Definition getScheme (rawURL : string) : (string * string) + ParseError :=
  getSchemeLoop rawURL 0 rawURL.

(** [validOptionalPort(port)] *)
Fixpoint allDigits (s : string) : bool :=
  match s with
  | EmptyString => true
  | String b s' => isDigit b && allDigits s'
  end.

Definition validOptionalPort (port : string) : bool :=
  match port with
  | EmptyString => true
  | String c rest => Ascii.eqb c ":" && allDigits rest
  end.

(** [validUserinfo(s)] *)
Fixpoint validUserinfo (s : string) : bool :=
  match s with
  | EmptyString => true
  | String r s' =>
      (isUpper r || isLower r || isDigit r || inCutset r "-._:~!$&'()*+,;=%@")
      && validUserinfo s'
  end.

(** [parseHost(host)] *)
Definition parseHost (host : string) : string + ParseError :=
  if HasPrefix host "[" then
    match LastIndexByte host "]" with
    | None => inr MissingBracket
    | Some i =>
        let colonPort := drop (S i) host in
        if negb (validOptionalPort colonPort) then inr (InvalidPort colonPort)
        else
          match Index (take i host) "%25" with
          | Some zone =>
              match unescape (take zone host) encodeHost with
              | inr e => inr e
              | inl host1 =>
                  match unescape (drop zone (take i host)) encodeZone with
                  | inr e => inr e
                  | inl host2 =>
                      match unescape (drop i host) encodeHost with
                      | inr e => inr e
                      | inl host3 => inl (host1 ++ host2 ++ host3)
                      end
                  end
              end
          | None => unescape host encodeHost
          end
    end
  else
    match LastIndexByte host ":" with
    | Some i =>
        let colonPort := drop i host in
        if negb (validOptionalPort colonPort) then inr (InvalidPort colonPort)
        else unescape host encodeHost
    | None => unescape host encodeHost
    end.

(** [parseAuthority(authority)] *)
Definition parseAuthority (authority : string)
  : (option Userinfo * string) + ParseError :=
  let i := LastIndexByte authority "@" in
  let hostPart := match i with
                  | None => authority
                  | Some i => drop (S i) authority
                  end in
  match parseHost hostPart with
  | inr e => inr e
  | inl host =>
      match i with
      | None => inl (None, host)
      | Some i =>
          let userinfo := take i authority in
          if negb (validUserinfo userinfo) then inr InvalidUserinfo
          else if negb (Contains userinfo ":") then
            match unescape userinfo encodeUserPassword with
            | inr e => inr e
            | inl u => inl (Some (mkUserinfo u EmptyString false), host)
            end
          else
            let '(uname, pass, _) := Cut userinfo ":" in
            match unescape uname encodeUserPassword with
            | inr e => inr e
            | inl u =>
                match unescape pass encodeUserPassword with
                | inr e => inr e
                | inl p => inl (Some (mkUserinfo u p true), host)
                end
            end
      end
  end.

(** [parse(rawURL, viaRequest)] *)
Definition parse (rawURL : string) (viaRequest : bool) : URL + ParseError :=
  if stringContainsCTLByte rawURL then inr InvalidControlChar
  else if (rawURL =? "") && viaRequest then inr EmptyURL
  else if rawURL =? "*" then
    inl (mkURL "" "" None "" "*" false false "" "")
  else
    match getScheme rawURL with
    | inr e => inr e
    | inl (scheme0, rest0) =>
        let scheme := ToLower scheme0 in
        let '(rest, rawQuery, forceQuery) :=
          if HasSuffix rest0 "?" && (Count rest0 "?" =? 1)%nat
          then (take (String.length rest0 - 1) rest0, EmptyString, true)
          else let '(before, after, _) := Cut rest0 "?" in
               (before, after, false) in
        if negb (HasPrefix rest "/") && negb (scheme =? "") then
          (* rootless path with a scheme: opaque *)
          inl (mkURL scheme rest None "" "" false forceQuery rawQuery "")
        else if negb (HasPrefix rest "/") && viaRequest then
          inr InvalidURIForRequest
        else if negb (HasPrefix rest "/")
                && Contains (fst (fst (Cut rest "/"))) ":" then
          inr FirstSegmentColon
        else if (negb (scheme =? "")
                 || (negb viaRequest && negb (HasPrefix rest "///")))
                && HasPrefix rest "//" then
          let authority0 := drop 2 rest in
          let '(authority, rest') :=
            match IndexByte authority0 "/" with
            | Some i => (take i authority0, drop i authority0)
            | None => (authority0, EmptyString)
            end in
          match parseAuthority authority with
          | inr e => inr e
          | inl (user, host) =>
              match unescape rest' encodePath with
              | inr e => inr e
              | inl path =>
                  inl (mkURL scheme "" user host path false forceQuery rawQuery "")
              end
          end
        else
          let omitHost := negb (scheme =? "") && HasPrefix rest "/" in
          match unescape rest encodePath with
          | inr e => inr e
          | inl path =>
              inl (mkURL scheme "" None "" path omitHost forceQuery rawQuery "")
          end
    end.

(** [url.Parse(rawURL)] *)
Definition Parse (rawURL : string) : URL + Error :=
  let '(u, frag, _) := Cut rawURL "#" in
  match parse u false with
  | inr e => inr (mkError "parse" u e)
  | inl url =>
      if frag =? "" then inl url
      else match unescape frag encodeFragment with
           | inr e => inr (mkError "parse" rawURL e)
           | inl f =>
               inl (mkURL (Scheme url) (Opaque url) (User url) (Host url)
                          (Path url) (OmitHost url) (ForceQuery url)
                          (RawQuery url) f)
           end
  end.

(** [splitHostPort(hostPort)] *)
Definition splitHostPort (hostPort : string) : string * string :=
  let '(host, port) :=
    match LastIndexByte hostPort ":" with
    | Some colon =>
        if validOptionalPort (drop colon hostPort)
        then (take colon hostPort, drop (S colon) hostPort)
        else (hostPort, EmptyString)
    | None => (hostPort, EmptyString)
    end in
  if HasPrefix host "[" && HasSuffix host "]"
  then (drop 1 (take (String.length host - 1) host), port)
  else (host, port).

(** [func (u *URL) Hostname() string] *)
Definition Hostname (u : URL) : string := fst (splitHostPort (Host u)).

End url.

(* ================================================================== *)
(** ** Package [hf]: [pkg/lib/hf/parse.go] *)
(* ================================================================== *)

Module hf.
Import strings.

(** Modelled from the spec: the declaration of [RepositoryType] and of
    its constants [RepoTypeUnknown], [RepoTypeModel], [RepoTypeDataset]
    is in a file of package [hf] that is not among the sources; the
    spec gives the enumeration as Unknown, Model, Dataset. *)
Inductive RepositoryType : Set :=
| RepoTypeUnknown
| RepoTypeModel
| RepoTypeDataset.

(** The errors [ParseHuggingFaceRepo] builds with [fmt.Errorf], one
    constructor per call site, carrying the formatted arguments. *)
Inductive error : Set :=
| InvalidDatasetFormat (path : string)
    (* "invalid dataset repository format: %s" *)
| InvalidURLFormat (err : url.Error)
    (* "invalid URL format: %w" *)
| UnsupportedHostname (hostname : string)
    (* "unsupported hostname: %s (only huggingface.co is supported)" *)
| InvalidDatasetURL (urlPath : string)
    (* "invalid dataset URL: expected datasets/org/repo, got '%s'" *)
| UnrecognizedURLPattern (path : string)
    (* "unrecognized HuggingFace URL pattern: %s" *)
| InvalidRepoFormat (path : string).
    (* "invalid repository format: %s" *)

(** The three results of the Go function:
    [(repo string, repoType RepositoryType, err error)];
    [None] is Go's [nil] error. *)
Definition result : Set := (string * RepositoryType * option error)%type.

(** [isValidRepoFormat] checks if a string is in "org/repo" format *)
Definition isValidRepoFormat (s : string) : bool :=
  let parts := Split s "/" in
  (List.length parts =? 2)%nat
  && negb (nth 0 parts "" =? "")
  && negb (nth 1 parts "" =? "").

(** The test that sends an input to the URL branch:
    [strings.Contains(path, "://") || strings.HasPrefix(path, "huggingface.co/")] *)
Definition looksLikeURL (path : string) : bool :=
  Contains path "://" || HasPrefix path "huggingface.co/".

(** [urlStr]: the input with ["https://"] put in front when it has no
    scheme separator. *)
Definition normalizedURL (path : string) : string :=
  if negb (Contains path "://") then "https://" ++ path else path.

Section WithURLParser.

(** [url.Parse], the one library call whose result decides the
    control flow. *)
Variable url_Parse : string -> url.URL + url.Error.

Definition ParseHuggingFaceRepo (path : string) : result :=
  (* Handle "datasets/" prefix (short form) *)
  if HasPrefix path "datasets/" then
    let repo := TrimPrefix path "datasets/" in
    if negb (isValidRepoFormat repo) then
      ("", RepoTypeUnknown, Some (InvalidDatasetFormat path))
    else (repo, RepoTypeDataset, None)
  (* Check if this looks like a URL *)
  else if looksLikeURL path then
    (* Normalize URL by adding scheme if missing *)
    let urlStr := normalizedURL path in
    match url_Parse urlStr with
    | inr err => ("", RepoTypeUnknown, Some (InvalidURLFormat err))
    | inl parsedURL =>
        (* Security: validate hostname is exactly huggingface.co *)
        if negb (url.Hostname parsedURL =? "huggingface.co") then
          ("", RepoTypeUnknown,
           Some (UnsupportedHostname (url.Hostname parsedURL)))
        else
          let pathSegments := Split (Trim (url.Path parsedURL) "/") "/" in
          if (1 <=? List.length pathSegments)%nat
             && (nth 0 pathSegments "" =? "datasets") then
            if (3 <=? List.length pathSegments)%nat then
              (Join (slice 1 3 pathSegments) "/", RepoTypeDataset, None)
            else
              ("", RepoTypeUnknown,
               Some (InvalidDatasetURL (url.Path parsedURL)))
          else if (List.length pathSegments =? 2)%nat then
            (Join pathSegments "/", RepoTypeModel, None)
          else
            ("", RepoTypeUnknown, Some (UnrecognizedURLPattern path))
    end
  (* Handle short form (org/repo) *)
  else if isValidRepoFormat path then (path, RepoTypeModel, None)
  else ("", RepoTypeUnknown, Some (InvalidRepoFormat path)).

End WithURLParser.

End hf.

(* ================================================================== *)
(** ** Go's [os.Stat], as far as [detectRemoteRepo] observes it *)
(* ================================================================== *)

Module os.

(** The reasons a [stat] can fail. *)
Inductive Errno : Set :=
| ENOENT        (* no such file or directory: [fs.ErrNotExist] *)
| EACCES        (* permission denied *)
| ENOTDIR
| ELOOP
| ENAMETOOLONG
| EIO.

(** A filesystem state is what [os.Stat] answers for each name: [None]
    for a [nil] error (the entry exists; the [FileInfo] is discarded
    by the caller), [Some e] for a [*PathError] with cause [e]. *)
Definition FileSystem : Set := string -> option Errno.

Definition Stat (fs : FileSystem) (name : string) : option Errno := fs name.

(** [errors.Is(err, fs.ErrNotExist)] *)
Definition IsNotExist (e : Errno) : bool :=
  match e with ENOENT => true | _ => false end.

End os.

(* ================================================================== *)
(** ** Package [kitinit]: the [kit init] command *)
(* ================================================================== *)

Module kitinit.
Import strings.

(** Modelled from the spec: [artifact.Package] is declared in package
    [artifact], which is not among the sources; the fields are the
    three that [buildPackageFromRepo] assigns (name, description,
    ordered sequence of authors). *)
Record Package : Set := mkPackage {
  Name : string;
  Description : string;
  Authors : list string
}.

(** [&artifact.Package{}]: every field at its zero value. *)
Definition zeroPackage : Package := mkPackage "" "" [].

Definition setName (p : Package) (v : string) : Package :=
  mkPackage v (Description p) (Authors p).
Definition setDescription (p : Package) (v : string) : Package :=
  mkPackage (Name p) v (Authors p).
Definition setAuthors (p : Package) (v : list string) : Package :=
  mkPackage (Name p) (Description p) v.

Definition buildPackageFromRepo (repo name description author : string)
  : Package :=
  let sections := Split repo "/" in
  let modelPackage := zeroPackage in
  let modelPackage :=
    if negb (name =? "") then setName modelPackage name
    else if (2 <=? List.length sections)%nat then
      setName modelPackage (nth (List.length sections - 1) sections "")
    else modelPackage in
  let modelPackage :=
    if negb (description =? "") then setDescription modelPackage description
    else modelPackage in
  let modelPackage :=
    if negb (author =? "") then
      setAuthors modelPackage (Authors modelPackage ++ [author])
    else if (2 <=? List.length sections)%nat then
      setAuthors modelPackage
        (Authors modelPackage ++ [nth (List.length sections - 2) sections ""])
    else modelPackage in
  modelPackage.

(** [path[1] == ':'], guarded by [len(path) >= 2] *)
Definition byteAt (s : string) (i : nat) : ascii :=
  match String.get i s with
  | Some c => c
  | None => Ascii.zero
  end.

Definition isLocalPath (path : string) : bool :=
  (* Check for common local path patterns *)
  if (path =? ".") || (path =? "..") then true
  else if HasPrefix path "./" || HasPrefix path "../" then true
  else if (path =? "~") || HasPrefix path "~/" || HasPrefix path "~\" then true
  else if HasPrefix path "/" then true
  (* Windows-style paths *)
  else if HasPrefix path "\"
          || ((2 <=? String.length path)%nat && Ascii.eqb (byteAt path 1) ":")
  then true
  else false.

Section WithEnvironment.

Variable url_Parse : string -> url.URL + url.Error.
Variable fs : os.FileSystem.

(** [(isRemote bool, repo string, repoType hf.RepositoryType)] *)
Definition detectRemoteRepo (path : string)
  : bool * string * hf.RepositoryType :=
  (* First, check if this looks like an explicit local filesystem path *)
  if isLocalPath path then (false, "", hf.RepoTypeUnknown)
  else
    (* Check if the path exists on the filesystem *)
    match os.Stat fs path with
    | None => (false, "", hf.RepoTypeUnknown)
    | Some _ =>
        (* try to parse as a HuggingFace URL/repo *)
        match hf.ParseHuggingFaceRepo url_Parse path with
        | (repo, repoType, None) => (true, repo, repoType)
        | (_, _, Some _) => (false, "", hf.RepoTypeUnknown)
        end
    end.

End WithEnvironment.

(** *** The defaults as the specification words them

    name = override if non-empty, else the last segment when the
    identifier has two or more; description = override; authors = the
    override alone if non-empty, else the second-to-last segment alone
    when the identifier has two or more, else nothing. *)

Definition segments (identifier : string) : list string := Split identifier "/".

Definition spec_name (identifier overrideName : string) : string :=
  if overrideName =? "" then
    match rev (segments identifier) with
    | lastSeg :: _ :: _ => lastSeg
    | _ => ""
    end
  else overrideName.

Definition spec_description (overrideDescription : string) : string :=
  if overrideDescription =? "" then "" else overrideDescription.

Definition spec_authors (identifier overrideAuthor : string) : list string :=
  if overrideAuthor =? "" then
    match rev (segments identifier) with
    | _ :: secondToLast :: _ => [secondToLast]
    | _ => []
    end
  else [overrideAuthor].

(** *** The command: options, completion and the two runs *)

(** [type initOptions struct] *)
Record initOptions : Set := mkInitOptions {
  path : string;
  configHome : string;
  modelkitName : string;
  modelkitDescription : string;
  modelkitAuthor : string;
  overwrite : bool;
  (* Remote repository options *)
  repoRef : string;
  token : string;
  outputPath : string;
  (* Computed fields *)
  isRemote : bool;
  repo : string;
  repoType : hf.RepositoryType
}.

Definition setConfigHome (o : initOptions) (v : string) : initOptions :=
  mkInitOptions (path o) v (modelkitName o) (modelkitDescription o)
    (modelkitAuthor o) (overwrite o) (repoRef o) (token o) (outputPath o)
    (isRemote o) (repo o) (repoType o).
Definition setPath (o : initOptions) (v : string) : initOptions :=
  mkInitOptions v (configHome o) (modelkitName o) (modelkitDescription o)
    (modelkitAuthor o) (overwrite o) (repoRef o) (token o) (outputPath o)
    (isRemote o) (repo o) (repoType o).
Definition setModelkitName (o : initOptions) (v : string) : initOptions :=
  mkInitOptions (path o) (configHome o) v (modelkitDescription o)
    (modelkitAuthor o) (overwrite o) (repoRef o) (token o) (outputPath o)
    (isRemote o) (repo o) (repoType o).
Definition setModelkitDescription (o : initOptions) (v : string) : initOptions :=
  mkInitOptions (path o) (configHome o) (modelkitName o) v
    (modelkitAuthor o) (overwrite o) (repoRef o) (token o) (outputPath o)
    (isRemote o) (repo o) (repoType o).
Definition setModelkitAuthor (o : initOptions) (v : string) : initOptions :=
  mkInitOptions (path o) (configHome o) (modelkitName o) (modelkitDescription o)
    v (overwrite o) (repoRef o) (token o) (outputPath o)
    (isRemote o) (repo o) (repoType o).
Definition setDetected (o : initOptions)
  (d : bool * string * hf.RepositoryType) : initOptions :=
  let '(r, id, ty) := d in
  mkInitOptions (path o) (configHome o) (modelkitName o) (modelkitDescription o)
    (modelkitAuthor o) (overwrite o) (repoRef o) (token o) (outputPath o)
    r id ty.

(** The [modelPackage] that [runLocalInit] hands to the generator: a
    [nil] pointer ([None]) unless a flag is set. *)
Definition localModelPackage (opts : initOptions) : option Package :=
  let modelPackage : option Package :=
    if negb (modelkitName opts =? "") || negb (modelkitDescription opts =? "")
    then Some (mkPackage (modelkitName opts) (modelkitDescription opts) [])
    else None in
  if negb (modelkitAuthor opts =? "") then
    let p := match modelPackage with
             | None => zeroPackage
             | Some p => p
             end in
    Some (setAuthors p (Authors p ++ [modelkitAuthor opts])%list)
  else modelPackage.

(** The texts the command reports, one constructor per format string. *)
Inductive Message : Set :=
| FetchingFileListing (repo ref : string)
    (* "Fetching file listing from remote repository %s (ref: %s)" *)
| GeneratedKitfile (yaml : string)
    (* "Generated Kitfile:\n\n%s" *)
| SavedToPath (name : string).
    (* "Saved to path '%s'" *)

(** What a run does to the outside, in order. *)
Inductive Effect : Set :=
| SystemInfof (m : Message)            (* output.SystemInfof *)
| Infof (m : Message)                  (* output.Infof *)
| Print (s : string)                   (* fmt.Print *)
| WriteFile (name data : string).      (* os.WriteFile(name, data, 0644) *)

Section Command.

(** The collaborators that are declared outside the sources: their
    types, and what each call answers. *)
Variable DirectoryListing : Set.       (* kfgen.DirectoryListing *)
Variable KitFile : Set.                (* artifact.KitFile *)
Variable goError : Set.                (* the errors they return *)
Variable Terminal : Set.               (* the state of stdin and stdout *)

Variable DefaultKitfileName : string.  (* constants.DefaultKitfileName *)
Variable filepath_Join : string -> string -> string.
Variable UserHomeDir : string + goError.
Variable ctxConfig : option string.    (* ctx.Value(constants.ConfigKey{}).(string) *)
Variable DirectoryListingFromFS : string -> DirectoryListing + goError.
Variable ListFiles :
  string -> string -> string -> hf.RepositoryType -> DirectoryListing + goError.
Variable GenerateKitfile : DirectoryListing -> option Package -> KitFile + goError.
Variable MarshalToYAML : KitFile -> string + goError.
Variable WriteFileResult : string -> string -> option os.Errno.
Variable IsInteractiveSession : Terminal -> bool.
Variable stdoutIsTerminal : Terminal -> bool.
Variable PromptForInput :
  string -> bool -> Terminal -> (string + goError) * Terminal.

Variable url_Parse : string -> url.URL + url.Error.
Variable fs : os.FileSystem.

(** The errors built by [output.Fatalf], one constructor per call. *)
Inductive CompleteError : Type :=
| ConfigPathNotSet          (* "default config path not set on command context" *)
| Collaborator (err : goError).

Inductive Fatal : Type :=
| InvalidArguments (err : CompleteError)
| KitfileAlreadyExists (kitfilePath : string)
| ErrorCheckingKitfile (err : os.Errno)
| ErrorProcessingDirectory (err : goError)
| ErrorGeneratingKitfile (err : goError)
| ErrorFormattingKitfile (err : goError)
| FailedToWriteKitfile (err : os.Errno)
| ErrorFetchingRemote (err : goError)
| FileAlreadyExists (name : string)
| ErrorCheckingFile (err : os.Errno).

(** Where [runLocalInit] writes. *)
Definition localKitfilePath (opts : initOptions) : string :=
  if outputPath opts =? "" then filepath_Join (path opts) DefaultKitfileName
  else outputPath opts.

Definition runLocalInit (opts : initOptions) : list Effect * option Fatal :=
  let modelPackage := localModelPackage opts in
  let kitfilePath := localKitfilePath opts in
  match
    match os.Stat fs kitfilePath with
    | None =>
        if negb (overwrite opts) then Some (KitfileAlreadyExists kitfilePath)
        else None
    | Some err =>
        if negb (os.IsNotExist err) then Some (ErrorCheckingKitfile err)
        else None
    end
  with
  | Some fatal => ([], Some fatal)
  | None =>
      match DirectoryListingFromFS (path opts) with
      | inr err => ([], Some (ErrorProcessingDirectory err))
      | inl dirContents =>
          match GenerateKitfile dirContents modelPackage with
          | inr err => ([], Some (ErrorGeneratingKitfile err))
          | inl kitfile =>
              match MarshalToYAML kitfile with
              | inr err => ([], Some (ErrorFormattingKitfile err))
              | inl bytes =>
                  match WriteFileResult kitfilePath bytes with
                  | Some err =>
                      ([WriteFile kitfilePath bytes],
                       Some (FailedToWriteKitfile err))
                  | None =>
                      ([WriteFile kitfilePath bytes;
                        Infof (GeneratedKitfile bytes);
                        Infof (SavedToPath kitfilePath)], None)
                  end
              end
          end
      end
  end.

Definition runRemoteInit (opts : initOptions) : list Effect * option Fatal :=
  let fetching := FetchingFileListing (repo opts) (repoRef opts) in
  let announce := if outputPath opts =? "" then [SystemInfof fetching]
                  else [Infof fetching] in
  match ListFiles (repo opts) (repoRef opts) (token opts) (repoType opts) with
  | inr err => (announce, Some (ErrorFetchingRemote err))
  | inl dirContents =>
      let modelPackage :=
        buildPackageFromRepo (repo opts) (modelkitName opts)
          (modelkitDescription opts) (modelkitAuthor opts) in
      match GenerateKitfile dirContents (Some modelPackage) with
      | inr err => (announce, Some (ErrorGeneratingKitfile err))
      | inl kitfile =>
          match MarshalToYAML kitfile with
          | inr err => (announce, Some (ErrorFormattingKitfile err))
          | inl bytes =>
              if negb (outputPath opts =? "") then
                match
                  match os.Stat fs (outputPath opts) with
                  | None =>
                      if negb (overwrite opts)
                      then Some (FileAlreadyExists (outputPath opts))
                      else None
                  | Some err =>
                      if negb (os.IsNotExist err)
                      then Some (ErrorCheckingFile err)
                      else None
                  end
                with
                | Some fatal => (announce, Some fatal)
                | None =>
                    match WriteFileResult (outputPath opts) bytes with
                    | Some err =>
                        ((announce ++ [WriteFile (outputPath opts) bytes])%list,
                         Some (FailedToWriteKitfile err))
                    | None =>
                        ((announce ++ [WriteFile (outputPath opts) bytes;
                                       Infof (GeneratedKitfile bytes);
                                       Infof (SavedToPath (outputPath opts))])%list,
                         None)
                    end
                end
              else ((announce ++ [Print bytes])%list, None)
          end
      end
  end.

(** One prompt of [completeLocal] or [completeRemote]: ask only when the
    field is empty; on an answer store it, on an error stop. *)
Definition promptIfEmpty
  (get : initOptions -> string) (set : initOptions -> string -> initOptions)
  (prompt : string) (st : initOptions * Terminal)
  : (initOptions * Terminal) + (initOptions * goError * Terminal) :=
  let '(opts, t) := st in
  if get opts =? "" then
    match PromptForInput prompt false t with
    | (inr err, t') => inr (opts, err, t')
    | (inl answer, t') => inl (set opts answer, t')
    end
  else inl (opts, t).

Definition completeLocal (opts : initOptions) (t : Terminal)
  : initOptions * option goError * Terminal :=
  if IsInteractiveSession t then
    match promptIfEmpty modelkitName setModelkitName
            "Enter a name for the ModelKit: " (opts, t) with
    | inr r => (fst (fst r), Some (snd (fst r)), snd r)
    | inl st1 =>
        match promptIfEmpty modelkitDescription setModelkitDescription
                "Enter a short description for the ModelKit: " st1 with
        | inr r => (fst (fst r), Some (snd (fst r)), snd r)
        | inl st2 =>
            match promptIfEmpty modelkitAuthor setModelkitAuthor
                    "Enter an author for the ModelKit: " st2 with
            | inr r => (fst (fst r), Some (snd (fst r)), snd r)
            | inl st3 => (fst st3, None, snd st3)
            end
        end
    end
  else (opts, None, t).

Definition completeRemote (opts : initOptions) (t : Terminal)
  : initOptions * option goError * Terminal :=
  if IsInteractiveSession t && stdoutIsTerminal t && (outputPath opts =? "") then
    match promptIfEmpty modelkitDescription setModelkitDescription
            "Enter a short description for the ModelKit: " (opts, t) with
    | inr r => (fst (fst r), Some (snd (fst r)), snd r)
    | inl st1 => (fst st1, None, snd st1)
    end
  else (opts, None, t).

(** [complete(ctx, args)] with [args = [arg]] ([cobra.ExactArgs(1)]). *)
Definition complete (opts : initOptions) (arg : string) (t : Terminal)
  : initOptions * option CompleteError * Terminal :=
  match ctxConfig with
  | None => (opts, Some ConfigPathNotSet, t)
  | Some cfg =>
      let opts := setConfigHome opts cfg in
      let opts := setPath opts arg in
      let expanded : initOptions + goError :=
        if (path opts =? "~") || HasPrefix (path opts) "~/"
           || HasPrefix (path opts) "~\" then
          match UserHomeDir with
          | inr err => inr err
          | inl home =>
              if path opts =? "~" then inl (setPath opts home)
              else inl (setPath opts (filepath_Join home (drop 2 (path opts))))
          end
        else inl opts in
      match expanded with
      | inr err => (opts, Some (Collaborator err), t)
      | inl opts =>
          let opts := setDetected opts (detectRemoteRepo url_Parse fs (path opts)) in
          let '(opts', err, t') :=
            if isRemote opts then completeRemote opts t
            else completeLocal opts t in
          (opts', option_map Collaborator err, t')
      end
  end.

(** The function [runCommand] returns, applied to the one argument. *)
Definition runCommand (opts : initOptions) (arg : string) (t : Terminal)
  : list Effect * option Fatal :=
  match complete opts arg t with
  | (_, Some err, _) => ([], Some (InvalidArguments err))
  | (opts', None, _) =>
      if isRemote opts' then runRemoteInit opts' else runLocalInit opts'
  end.

End Command.

End kitinit.

(* ================================================================== *)
(** ** Predicates and filesystem states used in the statements *)
(* ================================================================== *)

(** A call fails when it returns the empty identifier, the Unknown kind
    and an error (the specification's InvalidReference). *)
Definition InvalidReference (r : hf.result) : Prop :=
  exists e, r = ("", hf.RepoTypeUnknown, Some e).

(** The identifier is in normalized form. *)
Definition normalized (identifier : string) : Prop :=
  strings.HasPrefix identifier "/" = false
  /\ strings.HasSuffix identifier "/" = false
  /\ exists owner name,
       strings.Split identifier "/" = [owner; name] /\ owner <> "" /\ name <> "".

(** A filesystem in which no name exists. *)
Definition emptyFS : os.FileSystem := fun _ => Some os.ENOENT.

(** A filesystem in which exactly [name] exists. *)
Definition onlyFS (name : string) : os.FileSystem :=
  fun n => if n =? name then None else Some os.ENOENT.

(** A filesystem in which the stat of [name] fails with [e], and nothing
    else exists. *)
Definition failingFS (name : string) (e : os.Errno) : os.FileSystem :=
  fun n => if n =? name then Some e else Some os.ENOENT.

(** The explicit local forms of the path patterns that are written with
    ["."], ["/"] and ["~"]. *)
Definition explicitLocalForm (path : string) : Prop :=
  path = "." \/ path = ".." \/ path = "~"
  \/ strings.HasPrefix path "./" = true \/ strings.HasPrefix path "../" = true
  \/ strings.HasPrefix path "/" = true
  \/ strings.HasPrefix path "~/" = true \/ strings.HasPrefix path "~\" = true.

(** The names a run tries to write, in order. *)
Fixpoint writeTargets (trace : list kitinit.Effect) : list string :=
  match trace with
  | [] => []
  | kitinit.WriteFile name _ :: rest => name :: writeTargets rest
  | _ :: rest => writeTargets rest
  end.

(** The overwrite guard of both runs: the name does not exist, or it
    exists and [--force] was given. *)
Definition writeAllowed (fs : os.FileSystem) (force : bool) (name : string)
  : bool :=
  match os.Stat fs name with
  | None => force
  | Some err => os.IsNotExist err
  end.

(** The run announced a fetch from the remote repository. *)
Fixpoint announcesFetch (trace : list kitinit.Effect) : bool :=
  match trace with
  | [] => false
  | kitinit.SystemInfof (kitinit.FetchingFileListing _ _) :: _ => true
  | kitinit.Infof (kitinit.FetchingFileListing _ _) :: _ => true
  | _ :: rest => announcesFetch rest
  end.


(** The flags of the command line, which completion must not touch. *)
Definition sameFlags (a b : kitinit.initOptions) : Prop :=
  kitinit.overwrite a = kitinit.overwrite b
  /\ kitinit.repoRef a = kitinit.repoRef b
  /\ kitinit.token a = kitinit.token b
  /\ kitinit.outputPath a = kitinit.outputPath b.

(** The inputs that completion expands with the home directory. *)
Definition isTildeForm (arg : string) : bool :=
  (arg =? "~") || strings.HasPrefix arg "~/" || strings.HasPrefix arg "~\".

(** Completion keeps what was given: between [a] and [b] nothing
    differs except a name, a description or an author that was empty
    in [a]. *)
Definition givenValuesKept (a b : kitinit.initOptions) : Prop :=
  kitinit.path b = kitinit.path a
  /\ kitinit.configHome b = kitinit.configHome a
  /\ sameFlags a b
  /\ kitinit.isRemote b = kitinit.isRemote a
  /\ kitinit.repo b = kitinit.repo a
  /\ kitinit.repoType b = kitinit.repoType a
  /\ (kitinit.modelkitName a <> "" ->
      kitinit.modelkitName b = kitinit.modelkitName a)
  /\ (kitinit.modelkitDescription a <> "" ->
      kitinit.modelkitDescription b = kitinit.modelkitDescription a)
  /\ (kitinit.modelkitAuthor a <> "" ->
      kitinit.modelkitAuthor b = kitinit.modelkitAuthor a).

(** The computed fields agree with each other: not remote goes with the
    empty identifier and the Unknown kind, remote with a non-empty
    identifier and the kind Model or Dataset. *)
Definition computedConsistent (o : kitinit.initOptions) : Prop :=
  (kitinit.isRemote o = false ->
   kitinit.repo o = "" /\ kitinit.repoType o = hf.RepoTypeUnknown)
  /\ (kitinit.isRemote o = true ->
      (kitinit.repoType o = hf.RepoTypeModel
       \/ kitinit.repoType o = hf.RepoTypeDataset)
      /\ kitinit.repo o <> "").

(** The options [InitCommand] starts from, with the default of [--ref]
    and the given values of the other flags. *)
Definition flagOptions (name desc author : string) (force : bool)
  (output : string) : kitinit.initOptions :=
  kitinit.mkInitOptions "" "" name desc author force "main" "" output
    false "" hf.RepoTypeUnknown.

(** Collaborators for the examples: a listing of one file, a generator
    and a serializer that always succeed, a disk that accepts every
    write, and a terminal that is a list of the answers still to be
    typed. *)
Definition exampleListing : list string + string := inl ["model.safetensors"].
Definition exampleGenerate (l : list string) (p : option kitinit.Package)
  : string + string := inl "manifestVersion: 1.0.0".
Definition exampleMarshal (k : string) : string + string := inl k.
Definition exampleWrite (name data : string) : option os.Errno := None.
Definition examplePrompt (prompt : string) (sensitive : bool)
  (t : list string) : (string + string) * list string :=
  match t with
  | answer :: t' => (inl answer, t')
  | [] => (inr "EOF", [])
  end.

Definition exampleJoin (a b : string) : string := a ++ "/" ++ b.
Definition exampleInteractive (t : list string) : bool :=
  negb (Nat.eqb (List.length t) 0).

(** The functions of the command in the example world: home [/home/u],
    a session that is interactive exactly while answers are pending,
    stdout a terminal. *)
Definition exampleRunLocal (fs : os.FileSystem) (opts : kitinit.initOptions) :=
  kitinit.runLocalInit (list string) string string "Kitfile" exampleJoin
    (fun _ => exampleListing) exampleGenerate exampleMarshal exampleWrite
    fs opts.
Definition exampleCompleteLocal :=
  kitinit.completeLocal string (list string) exampleInteractive examplePrompt.
Definition exampleCompleteRemote :=
  kitinit.completeRemote string (list string) exampleInteractive
    (fun _ => true) examplePrompt.
Definition exampleComplete (fs : os.FileSystem) :=
  kitinit.complete string (list string) exampleJoin (inl "/home/u")
    (Some "/home/u/.kitops") exampleInteractive (fun _ => true) examplePrompt
    url.Parse fs.
Definition exampleRun (fs : os.FileSystem) :=
  kitinit.runCommand (list string) string string (list string)
    "Kitfile" exampleJoin (inl "/home/u") (Some "/home/u/.kitops")
    (fun _ => exampleListing) (fun _ _ _ _ => exampleListing)
    exampleGenerate exampleMarshal exampleWrite
    exampleInteractive (fun _ => true) examplePrompt url.Parse fs.










(* ================================================================== *)
(** * Properties *)
(* ================================================================== *)

Import strings.

(** ** Facts about [Split], [Count], [Contains] and [Join] *)

Section SplitFacts.

Variable sep : ascii.

Lemma Split_not_nil (s : string) : Split s sep <> [].
Proof.
  destruct s as [|a s]; simpl; [discriminate|].
  destruct (Ascii.eqb a sep); [discriminate|].
  destruct (Split s sep); discriminate.
Qed.

(** The number of parts is one more than the number of separators. *)
Lemma Split_length (s : string) :
  List.length (Split s sep) = S (Count s sep).
Proof.
  induction s as [|a s IH]; simpl; [reflexivity|].
  destruct (Ascii.eqb a sep); simpl.
  - now rewrite IH.
  - destruct (Split s sep) as [|h t]; simpl in *; lia.
Qed.

Lemma Split_no_sep (s : string) : Count s sep = 0 -> Split s sep = [s].
Proof.
  induction s as [|a s IH]; simpl; [reflexivity|].
  destruct (Ascii.eqb a sep); simpl; [discriminate|].
  intros H. now rewrite (IH H).
Qed.

Lemma Split_app_sep (a b : string) :
  Count a sep = 0 -> Split (a ++ String sep b) sep = a :: Split b sep.
Proof.
  induction a as [|x a IH]; simpl.
  - intros _. now rewrite Ascii.eqb_refl.
  - destruct (Ascii.eqb x sep); simpl; [discriminate|].
    intros H. now rewrite (IH H).
Qed.

(** No part contains the separator. *)
Lemma Split_parts_no_sep (s : string) :
  Forall (fun p => Count p sep = 0) (Split s sep).
Proof.
  induction s as [|a s IH]; simpl.
  - constructor; [reflexivity|constructor].
  - destruct (Ascii.eqb a sep) eqn:E.
    + constructor; [reflexivity|exact IH].
    + destruct (Split s sep) as [|h t]; inversion IH; subst;
        constructor; simpl; try rewrite E; auto.
Qed.

(** Joining the parts with the separator gives the string back. *)
Lemma Join_Split (s : string) :
  Join (Split s sep) (String sep EmptyString) = s.
Proof.
  unfold Join.
  induction s as [|a s IH]; simpl; [reflexivity|].
  destruct (Ascii.eqb_spec a sep) as [->|Hne].
  - pose proof (Split_not_nil s) as Hn.
    destruct (Split s sep) as [|h t]; [contradiction|].
    simpl in *. now rewrite IH.
  - pose proof (Split_not_nil s) as Hn.
    destruct (Split s sep) as [|h t]; [contradiction|].
    simpl in *. destruct t; simpl in *; now rewrite <- IH.
Qed.

(** Exactly two parts: the string is [a], one separator, [b]. *)
Lemma Split_two (s a b : string) :
  Split s sep = [a; b] <->
  s = a ++ String sep b /\ Count a sep = 0 /\ Count b sep = 0.
Proof.
  split.
  - intros H.
    pose proof (Join_Split s) as HJ.
    pose proof (Split_parts_no_sep s) as HF.
    rewrite H in HJ, HF. unfold Join in HJ. simpl in HJ.
    apply Forall_cons_iff in HF as [Ha HF].
    apply Forall_cons_iff in HF as [Hb _].
    repeat split; auto.
  - intros (-> & Ha & Hb).
    rewrite (Split_app_sep _ _ Ha). now rewrite (Split_no_sep _ Hb).
Qed.

End SplitFacts.

(** ** Prefixes, suffixes and substrings *)

Lemma take_drop (n : nat) (s : string) : take n s ++ drop n s = s.
Proof.
  revert s. induction n as [|n IH]; intros [|a s]; simpl; try reflexivity.
  now rewrite IH.
Qed.

Lemma prefix_split (p s : string) :
  String.prefix p s = true -> s = p ++ drop (String.length p) s.
Proof.
  revert s. induction p as [|a p IH]; intros s H; simpl.
  - now destruct s.
  - destruct s as [|b s]; simpl in H; [discriminate|].
    destruct (ascii_dec a b) as [->|]; [|discriminate].
    f_equal. now apply IH.
Qed.

Lemma HasPrefix_split (s p : string) :
  HasPrefix s p = true -> s = p ++ TrimPrefix s p.
Proof.
  unfold TrimPrefix. intros H. rewrite H.
  now apply prefix_split.
Qed.

Lemma HasSuffix_split (s suffix : string) :
  HasSuffix s suffix = true -> exists t, s = t ++ suffix.
Proof.
  unfold HasSuffix. intros H.
  apply andb_true_iff in H as [_ H]. apply String.eqb_eq in H.
  exists (take (String.length s - String.length suffix) s).
  pose proof (take_drop (String.length s - String.length suffix) s) as E.
  rewrite H in E. now symmetry.
Qed.

Lemma Contains_split (s sub : string) :
  Contains s sub = true -> exists a b, s = a ++ sub ++ b.
Proof.
  induction s as [|x s IH]; cbn [Contains].
  - destruct sub; simpl; [|discriminate].
    intros _. now exists "", "".
  - destruct (String.prefix sub (String x s)) eqn:E.
    + intros _. exists "". exists (TrimPrefix (String x s) sub).
      now apply HasPrefix_split.
    + intros H. destruct (IH H) as (a & b & ->).
      now exists (String x a), b.
Qed.

Lemma Count_app (a b : string) (c : ascii) :
  Count (a ++ b) c = Count a c + Count b c.
Proof. induction a as [|x a IH]; simpl; [reflexivity|rewrite IH; lia]. Qed.

(** Holding a byte and counting it. *)
Lemma Contains_byte_Count (s : string) (c : ascii) :
  Contains s (String c EmptyString) = false <-> Count s c = 0.
Proof.
  induction s as [|x s IH]; cbn [Contains Count]; [now split|].
  simpl String.prefix.
  destruct (ascii_dec c x) as [->|Hne].
  - rewrite Ascii.eqb_refl. destruct s; split; intros; discriminate.
  - destruct (Ascii.eqb_spec x c) as [->|_]; [contradiction|].
    exact IH.
Qed.

(** A substring cannot hold more separators than the whole string. *)
Lemma Contains_Count (s sub : string) (c : ascii) :
  Contains s sub = true -> Count sub c <= Count s c.
Proof.
  intros H. destruct (Contains_split _ _ H) as (a & b & ->).
  rewrite !Count_app. lia.
Qed.

(** The last part of a string that ends with the separator is empty. *)
Lemma Split_trailing_sep (t : string) (sep : ascii) :
  last (Split (t ++ String sep EmptyString) sep) "x" = "".
Proof.
  induction t as [|a t IH]; simpl.
  - now rewrite Ascii.eqb_refl.
  - pose proof (Split_length sep (t ++ String sep "")) as HL.
    rewrite Count_app in HL. simpl in HL. rewrite Ascii.eqb_refl in HL.
    destruct (Split (t ++ String sep "") sep) as [|h [|h' tl]];
      simpl in HL; try lia.
    destruct (Ascii.eqb a sep); exact IH.
Qed.

(** ** The two-segment format rule *)

Import hf.

Lemma isValidRepoFormat_parts (s : string) :
  isValidRepoFormat s = true <->
  exists a b, Split s "/" = [a; b] /\ a <> "" /\ b <> "".
Proof.
  unfold isValidRepoFormat. split.
  - intros H.
    apply andb_true_iff in H as [H Hb]. apply andb_true_iff in H as [Hl Ha].
    apply Nat.eqb_eq in Hl.
    destruct (Split s "/") as [|a [|b [|? ?]]]; try discriminate.
    exists a, b. simpl in Ha, Hb.
    apply negb_true_iff in Ha, Hb. apply String.eqb_neq in Ha, Hb. auto.
  - intros (a & b & -> & Ha & Hb). simpl.
    apply String.eqb_neq in Ha, Hb. now rewrite Ha, Hb.
Qed.

Lemma isValidRepoFormat_Count (s : string) :
  isValidRepoFormat s = true -> Count s "/" = 1.
Proof.
  intros H. apply isValidRepoFormat_parts in H as (a & b & E & _).
  pose proof (Split_length "/" s) as HL. rewrite E in HL. simpl in HL. lia.
Qed.

Lemma invalid_of_Count (s : string) :
  2 <= Count s "/" -> isValidRepoFormat s = false.
Proof.
  intros H. destruct (isValidRepoFormat s) eqn:E; [|reflexivity].
  apply isValidRepoFormat_Count in E. lia.
Qed.

Lemma invalid_of_leading_slash (s : string) :
  HasPrefix s "/" = true -> isValidRepoFormat s = false.
Proof.
  intros H. apply HasPrefix_split in H. rewrite H.
  unfold isValidRepoFormat. simpl. now rewrite andb_false_r.
Qed.

Lemma invalid_of_last_empty (s : string) :
  last (Split s "/") "x" = "" -> isValidRepoFormat s = false.
Proof.
  intros H. destruct (isValidRepoFormat s) eqn:E; [|reflexivity].
  apply isValidRepoFormat_parts in E as (a & b & E & _ & Hb).
  rewrite E in H. simpl in H. contradiction.
Qed.

Lemma invalid_of_trailing_slash (s : string) :
  HasSuffix s "/" = true -> isValidRepoFormat s = false.
Proof.
  intros H. apply HasSuffix_split in H as (t & ->).
  apply invalid_of_last_empty. apply Split_trailing_sep.
Qed.

Lemma invalid_of_doubled_slash (s : string) :
  Contains s "//" = true -> isValidRepoFormat s = false.
Proof.
  intros H. apply invalid_of_Count.
  exact (Contains_Count s "//" "/" H).
Qed.

Lemma invalid_of_scheme_separator (s : string) :
  Contains s "://" = true -> isValidRepoFormat s = false.
Proof.
  intros H. apply invalid_of_Count.
  exact (Contains_Count s "://" "/" H).
Qed.

(** What remains after the ["datasets/"] prefix. *)
Lemma datasets_prefix_split (path : string) :
  HasPrefix path "datasets/" = true ->
  path = "datasets/" ++ TrimPrefix path "datasets/".
Proof. apply HasPrefix_split. Qed.

Lemma datasets_rest_scheme_separator (r : string) :
  Contains ("datasets/" ++ r) "://" = Contains r "://".
Proof. reflexivity. Qed.

Lemma datasets_rest_doubled_slash (r : string) :
  Contains ("datasets/" ++ r) "//" = HasPrefix r "/" || Contains r "//".
Proof.
  destruct r as [|x r]; [reflexivity|].
  cbn. destruct (ascii_dec "/" x); reflexivity.
Qed.

Lemma datasets_not_bare_host (r : string) :
  HasPrefix ("datasets/" ++ r) "huggingface.co/" = false.
Proof. reflexivity. Qed.

(** An input that starts with ["datasets/"] and holds ["://"] never
    passes the dataset short form. *)
Lemma datasets_with_scheme_invalid (path : string) :
  HasPrefix path "datasets/" = true ->
  looksLikeURL path = true ->
  isValidRepoFormat (TrimPrefix path "datasets/") = false.
Proof.
  intros Hp Hu. pose proof (datasets_prefix_split _ Hp) as E.
  unfold looksLikeURL in Hu. rewrite E in Hu.
  rewrite datasets_not_bare_host, orb_false_r in Hu.
  rewrite datasets_rest_scheme_separator in Hu.
  now apply invalid_of_scheme_separator.
Qed.

(** ** Claims about [ParseHuggingFaceRepo] *)

Section ParserClaims.

Variable url_Parse : string -> url.URL + url.Error.

Lemma url_form_success_host (path repo : string) (ty : RepositoryType) :
  looksLikeURL path = true ->
  ParseHuggingFaceRepo url_Parse path = (repo, ty, None) ->
  exists u, url_Parse (normalizedURL path) = inl u
            /\ url.Hostname u = "huggingface.co".
Proof.
  intros Hu. unfold ParseHuggingFaceRepo.
  destruct (HasPrefix path "datasets/") eqn:Hd.
  - rewrite (datasets_with_scheme_invalid _ Hd Hu). discriminate.
  - rewrite Hu.
    destruct (url_Parse (normalizedURL path)) as [u|err]; [|discriminate].
    destruct (url.Hostname u =? "huggingface.co") eqn:Hh; [|discriminate].
    intros _. exists u. split; [reflexivity|now apply String.eqb_eq].
Qed.

Lemma url_form_other_host_fails (path : string) (u : url.URL) :
  looksLikeURL path = true ->
  url_Parse (normalizedURL path) = inl u ->
  url.Hostname u <> "huggingface.co" ->
  InvalidReference (ParseHuggingFaceRepo url_Parse path).
Proof.
  intros Hu Hp Hh. unfold ParseHuggingFaceRepo, InvalidReference.
  destruct (HasPrefix path "datasets/") eqn:Hd.
  - rewrite (datasets_with_scheme_invalid _ Hd Hu). simpl. eauto.
  - rewrite Hu, Hp. apply String.eqb_neq in Hh. rewrite Hh. simpl. eauto.
Qed.

Lemma url_form_unparsable_fails (path : string) (err : url.Error) :
  looksLikeURL path = true ->
  url_Parse (normalizedURL path) = inr err ->
  InvalidReference (ParseHuggingFaceRepo url_Parse path).
Proof.
  intros Hu Hp. unfold ParseHuggingFaceRepo, InvalidReference.
  destruct (HasPrefix path "datasets/") eqn:Hd.
  - rewrite (datasets_with_scheme_invalid _ Hd Hu). simpl. eauto.
  - rewrite Hu, Hp. eauto.
Qed.

Lemma short_form_roundtrip (s : string) :
  isValidRepoFormat s = true ->
  HasPrefix s "datasets/" = false ->
  HasPrefix s "huggingface.co/" = false ->
  ParseHuggingFaceRepo url_Parse s = (s, RepoTypeModel, None).
Proof.
  intros Hv Hd Hh. unfold ParseHuggingFaceRepo, looksLikeURL.
  rewrite Hd, Hh, orb_false_r.
  destruct (Contains s "://") eqn:Hc.
  - apply invalid_of_scheme_separator in Hc. congruence.
  - now rewrite Hv.
Qed.

Lemma short_form_bad_slash_fails (s : string) :
  looksLikeURL s = false ->
  HasPrefix s "/" = true \/ HasSuffix s "/" = true \/ Contains s "//" = true ->
  InvalidReference (ParseHuggingFaceRepo url_Parse s).
Proof.
  intros Hu Hs. unfold ParseHuggingFaceRepo, InvalidReference. rewrite Hu.
  destruct (HasPrefix s "datasets/") eqn:Hd.
  - pose proof (datasets_prefix_split _ Hd) as E.
    set (r := TrimPrefix s "datasets/") in *.
    assert (Hr : isValidRepoFormat r = false).
    { destruct Hs as [H|[H|H]].
      + rewrite E in H. discriminate.
      + apply invalid_of_last_empty.
        apply HasSuffix_split in H as (t & Ht).
        pose proof (Split_trailing_sep t "/") as HL.
        rewrite <- Ht, E in HL.
        change ("datasets/" ++ r) with ("datasets" ++ String "/" r) in HL.
        rewrite Split_app_sep in HL by reflexivity.
        pose proof (Split_not_nil "/" r) as Hn.
        destruct (Split r "/"); [contradiction|exact HL].
      + rewrite E, datasets_rest_doubled_slash in H.
        apply orb_true_iff in H as [H|H].
        * now apply invalid_of_leading_slash.
        * now apply invalid_of_doubled_slash. }
    rewrite Hr. simpl. eauto.
  - assert (Hr : isValidRepoFormat s = false).
    { destruct Hs as [H|[H|H]].
      + now apply invalid_of_leading_slash.
      + now apply invalid_of_trailing_slash.
      + now apply invalid_of_doubled_slash. }
    rewrite Hr. eauto.
Qed.

End ParserClaims.

(** C1. For every input of URL form (it holds ["://"] or starts with
    ["huggingface.co/"]), whatever the URL library answers: the call
    succeeds only if the URL parsed and its hostname is the byte string
    ["huggingface.co"]; if the URL parsed with any other hostname, or
    did not parse, the call fails with the empty identifier, the Unknown
    kind and an error.  With Go's parser this rejects the lookalike
    hosts [huggingface.co.evil.com], [evilhuggingface.co] and
    [huggingface.co.attacker.com], and a host that differs in letter
    case only. *)
Theorem C1_exact_host_match :
  (forall (url_Parse : string -> url.URL + url.Error) (path : string),
      looksLikeURL path = true ->
      (forall repo ty,
          ParseHuggingFaceRepo url_Parse path = (repo, ty, None) ->
          exists u, url_Parse (normalizedURL path) = inl u
                    /\ url.Hostname u = "huggingface.co")
      /\ (forall u, url_Parse (normalizedURL path) = inl u ->
                    url.Hostname u <> "huggingface.co" ->
                    InvalidReference (ParseHuggingFaceRepo url_Parse path))
      /\ (forall err, url_Parse (normalizedURL path) = inr err ->
                      InvalidReference (ParseHuggingFaceRepo url_Parse path)))
  /\ ParseHuggingFaceRepo url.Parse "https://huggingface.co.evil.com/org/repo"
     = ("", RepoTypeUnknown, Some (UnsupportedHostname "huggingface.co.evil.com"))
  /\ ParseHuggingFaceRepo url.Parse "https://evilhuggingface.co/org/repo"
     = ("", RepoTypeUnknown, Some (UnsupportedHostname "evilhuggingface.co"))
  /\ ParseHuggingFaceRepo url.Parse "https://huggingface.co.attacker.com/org/repo"
     = ("", RepoTypeUnknown, Some (UnsupportedHostname "huggingface.co.attacker.com"))
  /\ ParseHuggingFaceRepo url.Parse "huggingface.co.evil.com/org/repo"
     = ("", RepoTypeUnknown, Some (InvalidRepoFormat "huggingface.co.evil.com/org/repo"))
  /\ ParseHuggingFaceRepo url.Parse "https://HuggingFace.co/org/repo"
     = ("", RepoTypeUnknown, Some (UnsupportedHostname "HuggingFace.co")).
Proof.
  split; [|repeat split; vm_compute; reflexivity].
  intros url_Parse path Hu. repeat split.
  - intros repo ty. now apply url_form_success_host.
  - intros u. now apply url_form_other_host_fails.
  - intros err. now apply url_form_unparsable_fails.
Qed.

(** C1, at the input [https://huggingface.co.evil.com/org/repo] with
    Go's parser. *)
Lemma C1_exact_host_match_witness :
  looksLikeURL "https://huggingface.co.evil.com/org/repo" = true
  /\ InvalidReference
       (ParseHuggingFaceRepo url.Parse "https://huggingface.co.evil.com/org/repo").
Proof.
  split; [reflexivity|].
  refine (proj1 (proj2 (proj1 C1_exact_host_match url.Parse
                   "https://huggingface.co.evil.com/org/repo" eq_refl))
                (url.mkURL "https" "" None "huggingface.co.evil.com" "/org/repo"
                           false false "" "") _ _).
  - vm_compute. reflexivity.
  - vm_compute. discriminate.
Defined.

(** C8. [isValidRepoFormat] accepts exactly the strings whose split on
    ["/"] has two parts, both non-empty: the strings [owner/name] with
    non-empty, slash-free [owner] and [name].  Hence ["owner"] and
    ["owner/name/extra"] fail short-form parsing, ["datasets/owner"]
    fails dataset short-form parsing, and a string with a leading,
    trailing or doubled slash fails the rule, and fails to parse unless
    it has URL form. *)
Theorem C8_two_segment_rule :
  (forall s, isValidRepoFormat s = true <->
             exists a b, Split s "/" = [a; b] /\ a <> "" /\ b <> "")
  /\ (forall s, isValidRepoFormat s = true <->
                exists owner name,
                  s = owner ++ "/" ++ name
                  /\ owner <> "" /\ name <> ""
                  /\ Contains owner "/" = false /\ Contains name "/" = false)
  /\ (forall url_Parse,
         ParseHuggingFaceRepo url_Parse "owner"
         = ("", RepoTypeUnknown, Some (InvalidRepoFormat "owner"))
         /\ ParseHuggingFaceRepo url_Parse "owner/name/extra"
            = ("", RepoTypeUnknown, Some (InvalidRepoFormat "owner/name/extra"))
         /\ ParseHuggingFaceRepo url_Parse "datasets/owner"
            = ("", RepoTypeUnknown, Some (InvalidDatasetFormat "datasets/owner")))
  /\ (forall s,
         HasPrefix s "/" = true \/ HasSuffix s "/" = true \/ Contains s "//" = true ->
         isValidRepoFormat s = false
         /\ (looksLikeURL s = false ->
             forall url_Parse, InvalidReference (ParseHuggingFaceRepo url_Parse s))).
Proof.
  split; [exact isValidRepoFormat_parts|].
  split.
  - intros s. rewrite isValidRepoFormat_parts. split.
    + intros (a & b & E & Ha & Hb).
      apply Split_two in E as (-> & Ca & Cb).
      exists a, b. repeat split; auto; now apply Contains_byte_Count.
    + intros (a & b & -> & Ha & Hb & Ca & Cb).
      exists a, b. repeat split; auto.
      apply Split_two. repeat split; now try apply Contains_byte_Count.
  - split; [intros; repeat split; reflexivity|].
    intros s Hs. split.
    + destruct Hs as [H|[H|H]].
      * now apply invalid_of_leading_slash.
      * now apply invalid_of_trailing_slash.
      * now apply invalid_of_doubled_slash.
    + intros Hu url_Parse. now apply short_form_bad_slash_fails.
Qed.

(** C8, at the doubled-slash input ["owner//name"]. *)
Lemma C8_two_segment_rule_witness :
  Contains "owner//name" "//" = true
  /\ isValidRepoFormat "owner//name" = false
  /\ InvalidReference (ParseHuggingFaceRepo url.Parse "owner//name").
Proof.
  split; [reflexivity|].
  pose proof (proj2 (proj2 (proj2 C8_two_segment_rule)) "owner//name"
                (or_intror (or_intror eq_refl))) as [Hv Hp].
  split; [exact Hv|exact (Hp eq_refl url.Parse)].
Defined.

(** C5 as stated fails: ["datasets/squad"] splits into two non-empty
    segments, yet the [datasets/] tier takes it first and rejects it;
    ["huggingface.co/gpt2"] is a valid two-segment string that the URL
    tier takes and rejects. *)
Lemma C5_roundtrip_counterexample :
  isValidRepoFormat "datasets/squad" = true
  /\ ParseHuggingFaceRepo url.Parse "datasets/squad"
     = ("", RepoTypeUnknown, Some (InvalidDatasetFormat "datasets/squad"))
  /\ isValidRepoFormat "huggingface.co/gpt2" = true
  /\ ParseHuggingFaceRepo url.Parse "huggingface.co/gpt2"
     = ("", RepoTypeUnknown, Some (UnrecognizedURLPattern "huggingface.co/gpt2")).
Proof. repeat split; vm_compute; reflexivity. Qed.

(** C5 (amended). Round trip: every string that satisfies the
    two-segment rule and starts neither with ["datasets/"] nor with
    ["huggingface.co/"] parses, whatever the URL library, to itself with
    kind Model. *)
Theorem C5_short_form_roundtrip
  (url_Parse : string -> url.URL + url.Error) (s : string) :
  isValidRepoFormat s = true ->
  HasPrefix s "datasets/" = false ->
  HasPrefix s "huggingface.co/" = false ->
  ParseHuggingFaceRepo url_Parse s = (s, RepoTypeModel, None).
Proof. apply short_form_roundtrip. Qed.

(** C5 (amended), at ["myorg/mymodel"]. *)
Lemma C5_short_form_roundtrip_witness :
  ParseHuggingFaceRepo url.Parse "myorg/mymodel"
  = ("myorg/mymodel", RepoTypeModel, None).
Proof.
  apply (C5_short_form_roundtrip url.Parse "myorg/mymodel"); reflexivity.
Defined.

(** *** Where the normalized form does hold *)

Lemma normalized_iff_valid (s : string) :
  normalized s <-> isValidRepoFormat s = true.
Proof.
  unfold normalized. rewrite isValidRepoFormat_parts. split.
  - intros (_ & _ & H). exact H.
  - intros H. pose proof (proj2 (isValidRepoFormat_parts s) H) as Hv.
    repeat split; [| |exact H].
    + destruct (HasPrefix s "/") eqn:E; [|reflexivity].
      apply invalid_of_leading_slash in E. congruence.
    + destruct (HasSuffix s "/") eqn:E; [|reflexivity].
      apply invalid_of_trailing_slash in E. congruence.
Qed.

Lemma TrimLeft_head (s cutset : string) (x : ascii) (r : string) :
  TrimLeft s cutset = String x r -> inCutset x cutset = false.
Proof.
  induction s as [|a s IH]; simpl; [discriminate|].
  destruct (inCutset a cutset) eqn:E; [exact IH|].
  intros H. inversion H; subst. exact E.
Qed.

Lemma TrimLeft_suffix (s cutset : string) :
  exists pre, s = pre ++ TrimLeft s cutset.
Proof.
  induction s as [|a s [pre IH]]; simpl; [now exists ""|].
  destruct (inCutset a cutset).
  - exists (String a pre). simpl. now rewrite <- IH.
  - now exists "".
Qed.

Lemma TrimRight_last (s cutset t : string) (x : ascii) :
  TrimRight s cutset = t ++ String x "" -> inCutset x cutset = false.
Proof.
  revert t. induction s as [|a s IH]; intros t; simpl.
  - destruct t; discriminate.
  - destruct (TrimRight s cutset) as [|b r] eqn:E.
    + destruct (inCutset a cutset) eqn:Ea.
      * destruct t; discriminate.
      * destruct t as [|y t]; simpl; intros H; inversion H; subst; auto.
        destruct t; discriminate.
    + destruct t as [|y t]; simpl; intros H; inversion H; subst.
      now apply (IH t).
Qed.

Lemma append_assoc (a b c : string) : (a ++ b) ++ c = a ++ b ++ c.
Proof. induction a as [|x a IH]; simpl; [reflexivity|now rewrite IH]. Qed.

(** A path trimmed of slashes that splits in two has two non-empty
    parts. *)
Lemma Trim_two_parts (p a b : string) :
  Split (Trim p "/") "/" = [a; b] -> a <> "" /\ b <> "".
Proof.
  intros H. apply Split_two in H as (E & _ & _). unfold Trim in E. split.
  - intros ->. simpl in E. now apply TrimLeft_head in E.
  - intros ->.
    destruct (TrimLeft_suffix (TrimRight p "/") "/") as [pre Hp].
    rewrite E, <- append_assoc in Hp.
    now apply TrimRight_last in Hp.
Qed.

Lemma Join_two_valid (a b : string) :
  Count a "/" = 0 -> Count b "/" = 0 -> a <> "" -> b <> "" ->
  isValidRepoFormat (Join [a; b] "/") = true.
Proof.
  intros Ca Cb Ha Hb. apply isValidRepoFormat_parts. exists a, b.
  split; [|auto]. apply Split_two. unfold Join. simpl. auto.
Qed.

(** The identifier of every successful parse is normalized, except
    possibly on the dataset branch of the URL form. *)
Lemma identifier_normalized_unless_dataset_url
  (url_Parse : string -> url.URL + url.Error) (path repo : string)
  (ty : RepositoryType) :
  ParseHuggingFaceRepo url_Parse path = (repo, ty, None) ->
  normalized repo
  \/ (ty = RepoTypeDataset
      /\ HasPrefix path "datasets/" = false /\ looksLikeURL path = true).
Proof.
  unfold ParseHuggingFaceRepo.
  destruct (HasPrefix path "datasets/").
  { destruct (isValidRepoFormat (TrimPrefix path "datasets/")) eqn:Hv;
      simpl; intros H; inversion H; subst.
    left. now apply normalized_iff_valid. }
  destruct (looksLikeURL path).
  { destruct (url_Parse (normalizedURL path)) as [u|err]; [|discriminate].
    destruct (url.Hostname u =? "huggingface.co"); [|discriminate]. simpl.
    pose proof (Split_parts_no_sep "/" (Trim (url.Path u) "/")) as HF.
    pose proof (Trim_two_parts (url.Path u)) as HT.
    destruct (Split (Trim (url.Path u) "/") "/") as [|x [|y [|z tl]]];
      simpl.
    - discriminate.
    - destruct (x =? "datasets"); discriminate.
    - destruct (x =? "datasets"); [discriminate|].
      intros H. inversion H; subst. left. apply normalized_iff_valid.
      apply Forall_cons_iff in HF as [Cx HF].
      apply Forall_cons_iff in HF as [Cy _].
      destruct (HT x y eq_refl). now apply Join_two_valid.
    - destruct (x =? "datasets"); [|discriminate].
      intros H. inversion H; subst. right. auto. }
  destruct (isValidRepoFormat path) eqn:Hv; [|discriminate].
  intros H. inversion H; subst. left. now apply normalized_iff_valid.
Qed.

(** C3. The invariant fails on dataset URLs whose path has an empty
    segment: [https://huggingface.co/datasets//repo] parses successfully
    to the identifier ["/repo"] (leading slash, empty owner), and
    [https://huggingface.co/datasets/org//x] to ["org/"] (trailing
    slash, empty name).  Neither identifier satisfies the two-segment
    rule, which the dataset short form applies to the same paths:
    ["datasets//repo"] and ["datasets/org//x"] are rejected. *)
Theorem C3_dataset_url_empty_segment :
  ParseHuggingFaceRepo url.Parse "https://huggingface.co/datasets//repo"
  = ("/repo", RepoTypeDataset, None)
  /\ ~ normalized "/repo"
  /\ isValidRepoFormat "/repo" = false
  /\ ParseHuggingFaceRepo url.Parse "https://huggingface.co/datasets/org//x"
     = ("org/", RepoTypeDataset, None)
  /\ ~ normalized "org/"
  /\ isValidRepoFormat "org/" = false
  /\ InvalidReference (ParseHuggingFaceRepo url.Parse "datasets//repo")
  /\ InvalidReference (ParseHuggingFaceRepo url.Parse "datasets/org//x").
Proof.
  repeat split; try (vm_compute; reflexivity).
  - intros (H & _). discriminate H.
  - intros (_ & H & _). discriminate H.
  - eexists. vm_compute. reflexivity.
  - eexists. vm_compute. reflexivity.
Qed.

(** ** Claims about [detectRemoteRepo] and [isLocalPath] *)

Import kitinit.

Section ClassifierClaims.

Variable url_Parse : string -> url.URL + url.Error.
Variable fs : os.FileSystem.

Lemma detect_local (path : string) :
  isLocalPath path = true ->
  detectRemoteRepo url_Parse fs path = (false, "", RepoTypeUnknown).
Proof. intros H. unfold detectRemoteRepo. now rewrite H. Qed.

Lemma detect_existing (path : string) :
  os.Stat fs path = None ->
  detectRemoteRepo url_Parse fs path = (false, "", RepoTypeUnknown).
Proof.
  intros H. unfold detectRemoteRepo. rewrite H.
  now destruct (isLocalPath path).
Qed.

(** The classification is one of: the local result, or the successful
    parse of a name that is not an explicit local form and whose stat
    failed. *)
Lemma detect_cases (path : string) :
  detectRemoteRepo url_Parse fs path = (false, "", RepoTypeUnknown)
  \/ exists repo ty e,
       isLocalPath path = false
       /\ os.Stat fs path = Some e
       /\ ParseHuggingFaceRepo url_Parse path = (repo, ty, None)
       /\ detectRemoteRepo url_Parse fs path = (true, repo, ty).
Proof.
  unfold detectRemoteRepo.
  destruct (isLocalPath path); [now left|].
  destruct (os.Stat fs path) as [e|]; [|now left].
  destruct (ParseHuggingFaceRepo url_Parse path) as [[repo ty] [err|]].
  - now left.
  - right. exists repo, ty, e. auto.
Qed.

Lemma detect_parse_error (path repo : string) (ty : RepositoryType) (err : error) :
  ParseHuggingFaceRepo url_Parse path = (repo, ty, Some err) ->
  detectRemoteRepo url_Parse fs path = (false, "", RepoTypeUnknown).
Proof.
  intros H. unfold detectRemoteRepo. rewrite H.
  destruct (isLocalPath path); [reflexivity|].
  now destruct (os.Stat fs path).
Qed.

(** The stat error is looked at only for being [nil] or not. *)
Lemma detect_ignores_errno (path : string) (e : os.Errno) :
  isLocalPath path = false ->
  os.Stat fs path = Some e ->
  detectRemoteRepo url_Parse fs path
  = match ParseHuggingFaceRepo url_Parse path with
    | (repo, repoType, None) => (true, repo, repoType)
    | (_, _, Some _) => (false, "", RepoTypeUnknown)
    end.
Proof. intros Hl Hs. unfold detectRemoteRepo. now rewrite Hl, Hs. Qed.

End ClassifierClaims.

(** What a successful parse returns: a kind that is Model or Dataset and
    an identifier that is not empty. *)
Lemma Join_two_not_empty (a b : string) : Join [a; b] "/" <> "".
Proof. unfold Join. simpl. destruct a; discriminate. Qed.

Lemma parse_success_shape
  (url_Parse : string -> url.URL + url.Error) (path repo : string)
  (ty : RepositoryType) :
  ParseHuggingFaceRepo url_Parse path = (repo, ty, None) ->
  (ty = RepoTypeModel \/ ty = RepoTypeDataset) /\ repo <> "".
Proof.
  unfold ParseHuggingFaceRepo.
  destruct (HasPrefix path "datasets/").
  { destruct (isValidRepoFormat (TrimPrefix path "datasets/")) eqn:Hv;
      simpl; intros H; inversion H; subst.
    split; [now right|]. intros E. now rewrite E in Hv. }
  destruct (looksLikeURL path).
  { destruct (url_Parse (normalizedURL path)) as [u|err]; [|discriminate].
    destruct (url.Hostname u =? "huggingface.co"); [|discriminate]. simpl.
    destruct (Split (Trim (url.Path u) "/") "/") as [|x [|y [|z tl]]] eqn:E;
      simpl.
    - discriminate.
    - destruct (x =? "datasets"); discriminate.
    - destruct (x =? "datasets"); [discriminate|].
      intros H. inversion H; subst.
      split; [now left|apply Join_two_not_empty].
    - destruct (x =? "datasets").
      + intros H. inversion H; subst.
        split; [now right|apply Join_two_not_empty].
      + discriminate. }
  destruct (isValidRepoFormat path) eqn:Hv; [|discriminate].
  intros H. inversion H; subst.
  split; [now left|]. intros E. now rewrite E in Hv.
Qed.

(** C2. The code does not propagate a stat failure: the error of
    [os.Stat] is only compared with [nil], so a failure that is not
    "does not exist" classifies exactly as a missing name does.  With
    permission denied on ["models/my-model"] the input goes on to remote
    parsing and is classified as the remote model ["models/my-model"];
    the result type has no error component to carry the failure. *)
Theorem C2_stat_error_falls_through_to_remote :
  os.IsNotExist os.EACCES = false
  /\ detectRemoteRepo url.Parse (failingFS "models/my-model" os.EACCES)
       "models/my-model"
     = (true, "models/my-model", RepoTypeModel)
  /\ (forall url_Parse name e,
         detectRemoteRepo url_Parse (failingFS name e) name
         = detectRemoteRepo url_Parse (failingFS name os.ENOENT) name).
Proof.
  split; [reflexivity|]. split; [vm_compute; reflexivity|].
  intros url_Parse name e. unfold detectRemoteRepo, os.Stat, failingFS.
  now rewrite String.eqb_refl.
Qed.

(** C4 as stated fails: ["~org/repo"] starts with ['~'], is not an
    explicit local form, and with no such file is classified remote. *)
Lemma C4_tilde_prefix_counterexample :
  HasPrefix "~org/repo" "~" = true
  /\ isLocalPath "~org/repo" = false
  /\ detectRemoteRepo url.Parse emptyFS "~org/repo"
     = (true, "~org/repo", RepoTypeModel).
Proof. repeat split; vm_compute; reflexivity. Qed.

Lemma explicitLocalForm_isLocalPath (path : string) :
  explicitLocalForm path -> isLocalPath path = true.
Proof.
  unfold explicitLocalForm, isLocalPath.
  intros [->|[->|[->|[H|[H|[H|[H|H]]]]]]]; try reflexivity; rewrite H;
    repeat (rewrite ?orb_true_r; simpl;
            match goal with
            | |- context [if ?b then true else _] => destruct b; try reflexivity
            end).
Qed.

(** C4 (amended). Every input that is exactly ["."], [".."] or ["~"], or
    starts with ["./"], ["../"], ["/"], ["~/"] or ["~\"], is classified
    not remote, with empty identifier and Unknown kind, in every
    filesystem state and whatever the parser would say of it. *)
Theorem C4_explicit_local_forms
  (url_Parse : string -> url.URL + url.Error) (fs : os.FileSystem)
  (path : string) :
  explicitLocalForm path ->
  detectRemoteRepo url_Parse fs path = (false, "", RepoTypeUnknown).
Proof.
  intros H. apply detect_local. now apply explicitLocalForm_isLocalPath.
Qed.

(** C4 (amended), at ["./org"], which the parser alone would accept as a
    model and which does not exist. *)
Lemma C4_explicit_local_forms_witness :
  ParseHuggingFaceRepo url.Parse "./org" = ("./org", RepoTypeModel, None)
  /\ detectRemoteRepo url.Parse emptyFS "./org" = (false, "", RepoTypeUnknown).
Proof.
  split; [reflexivity|].
  apply (C4_explicit_local_forms url.Parse emptyFS "./org").
  unfold explicitLocalForm. do 3 right. left. reflexivity.
Defined.

(** C6. An input that is not an explicit local form and whose stat
    succeeds (the name exists, as a file or a directory at any depth) is
    classified not remote, with empty identifier and Unknown kind, also
    when the parser would accept it. *)
Theorem C6_existing_entry_is_local
  (url_Parse : string -> url.URL + url.Error) (fs : os.FileSystem)
  (path : string) :
  isLocalPath path = false ->
  os.Stat fs path = None ->
  detectRemoteRepo url_Parse fs path = (false, "", RepoTypeUnknown).
Proof. intros _. apply detect_existing. Qed.

(** C6, at the existing directory ["models/my-model"], which has the
    two-segment shape. *)
Lemma C6_existing_entry_is_local_witness :
  ParseHuggingFaceRepo url.Parse "models/my-model"
  = ("models/my-model", RepoTypeModel, None)
  /\ detectRemoteRepo url.Parse (onlyFS "models/my-model") "models/my-model"
     = (false, "", RepoTypeUnknown).
Proof.
  split; [reflexivity|].
  apply (C6_existing_entry_is_local url.Parse (onlyFS "models/my-model")
           "models/my-model"); reflexivity.
Defined.

(** C7. Whenever the classification says not remote, the identifier is
    empty and the kind is Unknown: on every input, in every filesystem
    state, with every parser. *)
Theorem C7_local_has_no_metadata
  (url_Parse : string -> url.URL + url.Error) (fs : os.FileSystem)
  (path repo : string) (ty : RepositoryType) :
  detectRemoteRepo url_Parse fs path = (false, repo, ty) ->
  repo = "" /\ ty = RepoTypeUnknown.
Proof.
  intros H.
  destruct (detect_cases url_Parse fs path) as [E|(r & t & e & _ & _ & _ & E)];
    rewrite E in H; inversion H; auto.
Qed.

(** C7, at the unparsable and absent input ["owner"]. *)
Lemma C7_local_has_no_metadata_witness :
  detectRemoteRepo url.Parse emptyFS "owner" = (false, "", RepoTypeUnknown)
  /\ "" = "" /\ RepoTypeUnknown = RepoTypeUnknown.
Proof.
  split; [reflexivity|].
  apply (C7_local_has_no_metadata url.Parse emptyFS "owner"). reflexivity.
Defined.

(** C10. Whenever the classification says remote, the kind is Model or
    Dataset and the identifier is not empty; and every failure of the
    parser becomes the not-remote result: the classification, which has
    no error component, is a total function of the input, the
    filesystem state and the parser. *)
Theorem C10_remote_has_metadata
  (url_Parse : string -> url.URL + url.Error) (fs : os.FileSystem)
  (path : string) :
  (forall repo ty,
      detectRemoteRepo url_Parse fs path = (true, repo, ty) ->
      (ty = RepoTypeModel \/ ty = RepoTypeDataset) /\ repo <> "")
  /\ (forall repo ty err,
         ParseHuggingFaceRepo url_Parse path = (repo, ty, Some err) ->
         detectRemoteRepo url_Parse fs path = (false, "", RepoTypeUnknown))
  /\ (exists isRemote repo ty,
         detectRemoteRepo url_Parse fs path = (isRemote, repo, ty)).
Proof.
  split; [|split].
  - intros repo ty H.
    destruct (detect_cases url_Parse fs path) as [E|(r & t & e & _ & _ & P & E)];
      rewrite E in H; inversion H; subst.
    exact (parse_success_shape url_Parse path repo ty P).
  - intros repo ty err. apply detect_parse_error.
  - destruct (detectRemoteRepo url_Parse fs path) as [[b r] t]. now exists b, r, t.
Qed.

(** C10, at the dataset URL of the specification's scenario. *)
Lemma C10_remote_has_metadata_witness :
  detectRemoteRepo url.Parse emptyFS "https://huggingface.co/datasets/org/repo"
  = (true, "org/repo", RepoTypeDataset)
  /\ (RepoTypeDataset = RepoTypeModel \/ RepoTypeDataset = RepoTypeDataset)
  /\ "org/repo" <> "".
Proof.
  split; [vm_compute; reflexivity|].
  apply (proj1 (C10_remote_has_metadata url.Parse emptyFS
                  "https://huggingface.co/datasets/org/repo")).
  vm_compute. reflexivity.
Defined.

(** ** Claims about [buildPackageFromRepo] *)

(** Indexing from the end, as the code does, reads the reversed list
    from the front. *)
Lemma nth_from_end (l : list string) (k : nat) :
  k < List.length l ->
  nth (List.length l - S k) l "" = nth k (rev l) "".
Proof. intros H. symmetry. now apply rev_nth. Qed.

Lemma sections_last (l : list string) :
  (2 <=? List.length l)%nat = true ->
  exists x y r, rev l = x :: y :: r
                /\ nth (List.length l - 1) l "" = x
                /\ nth (List.length l - 2) l "" = y.
Proof.
  intros H. apply Nat.leb_le in H.
  pose proof (nth_from_end l 0) as H0. pose proof (nth_from_end l 1) as H1.
  rewrite <- (length_rev l) in H.
  destruct (rev l) as [|x [|y r]] eqn:E; simpl in H; try lia.
  exists x, y, r. rewrite <- (length_rev l), E in H0, H1. simpl in H0, H1.
  rewrite <- (length_rev l), E. simpl.
  split; [reflexivity|]. split; [apply H0; lia|apply H1; lia].
Qed.

Lemma sections_short (l : list string) :
  (2 <=? List.length l)%nat = false ->
  rev l = [] \/ exists x, rev l = [x].
Proof.
  intros H. apply Nat.leb_gt in H. rewrite <- (length_rev l) in H.
  destruct (rev l) as [|x [|y r]]; simpl in H; try lia; eauto.
Qed.

(** C9. [buildPackageFromRepo] computes exactly the defaults the
    specification words: each of name, description and authors is its
    own override when that is non-empty, and otherwise the last segment,
    the empty string, and the second-to-last segment alone (when the
    identifier has two or more segments; else empty).  The three fields
    are decided independently.  For ["myorg/mymodel"] with no override:
    name ["mymodel"], authors [["myorg"]], description [""]; an override
    of one field leaves the other two as derived. *)
Theorem C9_buildPackageFromRepo_defaults :
  (forall repo name description author,
      buildPackageFromRepo repo name description author
      = mkPackage (spec_name repo name)
                  (spec_description description)
                  (spec_authors repo author))
  /\ buildPackageFromRepo "myorg/mymodel" "" "" ""
     = mkPackage "mymodel" "" ["myorg"]
  /\ buildPackageFromRepo "myorg/mymodel" "custom-name" "" ""
     = mkPackage "custom-name" "" ["myorg"]
  /\ buildPackageFromRepo "myorg/mymodel" "" "My model description" ""
     = mkPackage "mymodel" "My model description" ["myorg"]
  /\ buildPackageFromRepo "myorg/mymodel" "" "" "custom-author"
     = mkPackage "mymodel" "" ["custom-author"]
  /\ buildPackageFromRepo "mymodel" "" "" "" = mkPackage "" "" [].
Proof.
  split; [|repeat split; reflexivity].
  intros repo name description author.
  unfold buildPackageFromRepo, spec_name, spec_description, spec_authors,
    segments, setName, setDescription, setAuthors, zeroPackage.
  destruct (2 <=? List.length (Split repo "/"))%nat eqn:Hlen.
  - destruct (sections_last _ Hlen) as (x & y & r & -> & -> & ->).
    destruct (name =? ""), (description =? "") eqn:Hd, (author =? "");
      simpl; try reflexivity;
      apply String.eqb_eq in Hd; now subst.
  - destruct (sections_short _ Hlen) as [->|(x & ->)];
      destruct (name =? ""), (description =? "") eqn:Hd, (author =? "");
      simpl; try reflexivity;
      apply String.eqb_eq in Hd; now subst.
Qed.

(* ================================================================== *)
(** * Further properties of [ParseHuggingFaceRepo] *)
(* ================================================================== *)

Section ParserShape.

Variable url_Parse : string -> url.URL + url.Error.

(** Every return that carries an error carries the empty identifier and
    the Unknown kind. *)
Lemma parse_error_shape (path repo : string) (ty : RepositoryType) (e : error) :
  ParseHuggingFaceRepo url_Parse path = (repo, ty, Some e) ->
  repo = "" /\ ty = RepoTypeUnknown.
Proof.
  unfold ParseHuggingFaceRepo.
  destruct (HasPrefix path "datasets/").
  { destruct (isValidRepoFormat (TrimPrefix path "datasets/")); simpl;
      intros H; inversion H; auto. }
  destruct (looksLikeURL path).
  { destruct (url_Parse (normalizedURL path)) as [u|err];
      [|intros H; inversion H; auto].
    destruct (url.Hostname u =? "huggingface.co"); simpl;
      [|intros H; inversion H; auto].
    destruct (Split (Trim (url.Path u) "/") "/") as [|x [|y [|z tl]]]; simpl;
      try destruct (x =? "datasets"); intros H; inversion H; auto. }
  destruct (isValidRepoFormat path); intros H; inversion H; auto.
Qed.

End ParserShape.

(** X1. The parser fails closed.  Each call returns either the full
    failure (empty identifier, Unknown kind, an error) or a full
    success (no error, kind Model or Dataset, non-empty identifier);
    no result mixes an error with an identifier or a kind. *)
Theorem X1_parse_result_is_total_failure_or_success
  (url_Parse : string -> url.URL + url.Error) (path : string) :
  InvalidReference (ParseHuggingFaceRepo url_Parse path)
  \/ exists repo ty,
       ParseHuggingFaceRepo url_Parse path = (repo, ty, None)
       /\ (ty = RepoTypeModel \/ ty = RepoTypeDataset) /\ repo <> "".
Proof.
  destruct (ParseHuggingFaceRepo url_Parse path) as [[repo ty] [e|]] eqn:E.
  - left. destruct (parse_error_shape _ _ _ _ _ E) as [-> ->]. now exists e.
  - right. exists repo, ty. split; [reflexivity|].
    exact (parse_success_shape _ _ _ _ E).
Qed.

(** ** Trimming slashes around a path *)












Lemma HasPrefix_app (p r : string) : HasPrefix (p ++ r) p = true.
Proof.
  unfold HasPrefix. induction p as [|a p IH]; simpl; [now destruct r|].
  destruct (ascii_dec a a); [exact IH|contradiction].
Qed.

Lemma TrimPrefix_app (p r : string) : TrimPrefix (p ++ r) p = r.
Proof.
  unfold TrimPrefix. rewrite HasPrefix_app.
  induction p as [|a p IH]; simpl; [now destruct r|exact IH].
Qed.


Lemma owner_datasets (a b : string) :
  Count a "/" = 0 ->
  HasPrefix (a ++ String "/" b) "datasets/" = true -> a = "datasets".
Proof.
  intros Ca H. apply HasPrefix_split in H.
  pose proof (Split_app_sep "/" a b Ca) as S1.
  rewrite H in S1.
  change ("datasets/" ++ ?x) with ("datasets" ++ String "/" x) in S1.
  rewrite Split_app_sep in S1 by reflexivity.
  now inversion S1.
Qed.

Section UrlTiers.

Variable url_Parse : string -> url.URL + url.Error.



Lemma model_identifier_owner (path repo : string) :
  ParseHuggingFaceRepo url_Parse path = (repo, RepoTypeModel, None) ->
  HasPrefix repo "datasets/" = false.
Proof.
  unfold ParseHuggingFaceRepo.
  destruct (HasPrefix path "datasets/") eqn:Hd.
  { destruct (isValidRepoFormat (TrimPrefix path "datasets/")); discriminate. }
  destruct (looksLikeURL path).
  { destruct (url_Parse (normalizedURL path)) as [u|err]; [|discriminate].
    destruct (url.Hostname u =? "huggingface.co"); [|discriminate]. simpl.
    pose proof (Split_parts_no_sep "/" (Trim (url.Path u) "/")) as HF.
    destruct (Split (Trim (url.Path u) "/") "/") as [|x [|y [|z tl]]];
      simpl; try discriminate.
    - destruct (x =? "datasets"); discriminate.
    - destruct (x =? "datasets") eqn:Ex; [discriminate|].
      intros H. inversion H; subst.
      apply Forall_cons_iff in HF as [Cx _].
      destruct (HasPrefix (x ++ String "/" y) "datasets/") eqn:Hp; [|reflexivity].
      apply (owner_datasets x y Cx) in Hp. subst. discriminate.
    - destruct (x =? "datasets"); discriminate. }
  destruct (isValidRepoFormat path); [|discriminate].
  intros H. inversion H; subst. exact Hd.
Qed.

End UrlTiers.

(** X2. Dataset short form.  An input that starts with ["datasets/"]
    succeeds exactly when the rest satisfies the two-segment rule; the
    result is then that rest, unchanged, with kind Dataset.  So
    ["datasets/" ++ r] round-trips every valid [r], and such an input is
    never a Model and never reaches the URL parser. *)
Theorem X2_dataset_short_form
  (url_Parse : string -> url.URL + url.Error) (path repo : string)
  (ty : RepositoryType) :
  HasPrefix path "datasets/" = true ->
  (ParseHuggingFaceRepo url_Parse path = (repo, ty, None)
   <-> ty = RepoTypeDataset
       /\ path = "datasets/" ++ repo
       /\ isValidRepoFormat repo = true).
Proof.
  intros Hd. pose proof (datasets_prefix_split path Hd) as E.
  unfold ParseHuggingFaceRepo. rewrite Hd. split.
  - destruct (isValidRepoFormat (TrimPrefix path "datasets/")) eqn:Hv;
      simpl; intros H; inversion H; subst. auto.
  - intros (-> & Hp & Hv).
    assert (Hr : TrimPrefix path "datasets/" = repo).
    { rewrite Hp. apply TrimPrefix_app. }
    now rewrite Hr, Hv.
Qed.

(** X2, at ["datasets/myorg/mydataset"]. *)
Lemma X2_dataset_short_form_witness :
  ParseHuggingFaceRepo url.Parse "datasets/myorg/mydataset"
  = ("myorg/mydataset", RepoTypeDataset, None).
Proof.
  apply (X2_dataset_short_form url.Parse "datasets/myorg/mydataset"
           "myorg/mydataset" RepoTypeDataset); [reflexivity|].
  repeat split; reflexivity.
Defined.





(** X5. The identifier of a Model result never starts with
    ["datasets/"]: no input makes the parser return a model whose owner
    is [datasets]. *)
Theorem X5_model_owner_is_never_datasets
  (url_Parse : string -> url.URL + url.Error) (path repo : string) :
  ParseHuggingFaceRepo url_Parse path = (repo, RepoTypeModel, None) ->
  HasPrefix repo "datasets/" = false.
Proof. apply model_identifier_owner. Qed.

(** X5, at the model URL [https://huggingface.co/myorg/mymodel]. *)
Lemma X5_model_owner_is_never_datasets_witness :
  HasPrefix "myorg/mymodel" "datasets/" = false.
Proof.
  apply (X5_model_owner_is_never_datasets url.Parse
           "https://huggingface.co/myorg/mymodel" "myorg/mymodel").
  vm_compute. reflexivity.
Defined.

(** X6. A Model identifier is a canonical short form: parsing it again
    returns it unchanged with kind Model, unless its owner is
    [huggingface.co] (such an identifier is read as a URL). *)
Theorem X6_model_identifier_parses_to_itself
  (url_Parse : string -> url.URL + url.Error) (path repo : string) :
  ParseHuggingFaceRepo url_Parse path = (repo, RepoTypeModel, None) ->
  HasPrefix repo "huggingface.co/" = false ->
  ParseHuggingFaceRepo url_Parse repo = (repo, RepoTypeModel, None).
Proof.
  intros H Hh. apply short_form_roundtrip; [|now apply (model_identifier_owner url_Parse path)|exact Hh].
  destruct (identifier_normalized_unless_dataset_url _ _ _ _ H) as [N|(D & _)].
  - now apply normalized_iff_valid.
  - discriminate.
Qed.

(** X6, at the model URL [http://huggingface.co/myorg/mymodel]. *)
Lemma X6_model_identifier_parses_to_itself_witness :
  ParseHuggingFaceRepo url.Parse "myorg/mymodel"
  = ("myorg/mymodel", RepoTypeModel, None).
Proof.
  apply (X6_model_identifier_parses_to_itself url.Parse
           "http://huggingface.co/myorg/mymodel" "myorg/mymodel");
    vm_compute; reflexivity.
Defined.

(* ================================================================== *)
(** * Further properties of the classification and of the defaults *)
(* ================================================================== *)

(** X7. The documented remote spellings are never explicit local forms:
    an input that starts with [https://], [http://], [huggingface.co/]
    or [datasets/] passes the pattern test, so that its classification
    is decided by the stat and, when the stat fails, by the parser
    alone: remote exactly when the parse succeeds. *)
Theorem X7_remote_spellings_reach_the_parser
  (url_Parse : string -> url.URL + url.Error) (fs : os.FileSystem)
  (path : string) :
  HasPrefix path "https://" = true \/ HasPrefix path "http://" = true
  \/ HasPrefix path "huggingface.co/" = true
  \/ HasPrefix path "datasets/" = true ->
  isLocalPath path = false
  /\ (forall e, os.Stat fs path = Some e ->
        detectRemoteRepo url_Parse fs path
        = match ParseHuggingFaceRepo url_Parse path with
          | (repo, repoType, None) => (true, repo, repoType)
          | (_, _, Some _) => (false, "", RepoTypeUnknown)
          end).
Proof.
  intros H.
  assert (Hl : isLocalPath path = false).
  { destruct H as [H|[H|[H|H]]]; apply HasPrefix_split in H; rewrite H;
      reflexivity. }
  split; [exact Hl|]. intros e He. now apply (detect_ignores_errno _ _ _ e).
Qed.

(** X7, at [https://huggingface.co/org/repo] with no such file. *)
Lemma X7_remote_spellings_reach_the_parser_witness :
  detectRemoteRepo url.Parse emptyFS "https://huggingface.co/org/repo"
  = (true, "org/repo", RepoTypeModel).
Proof.
  refine (eq_trans
            (proj2 (X7_remote_spellings_reach_the_parser url.Parse emptyFS
                      "https://huggingface.co/org/repo" (or_introl eq_refl))
                   os.ENOENT eq_refl) _).
  vm_compute. reflexivity.
Defined.

Lemma second_byte_colon (path : string) :
  ((2 <=? String.length path)%nat && Ascii.eqb (byteAt path 1) ":") = true
  <-> exists c rest, path = String c (String ":" rest).
Proof.
  split.
  - intros H. apply andb_true_iff in H as [_ H].
    destruct path as [|c [|d rest]]; try discriminate.
    unfold byteAt in H. simpl in H. apply Ascii.eqb_eq in H. subst.
    now exists c, rest.
  - intros (c & rest & ->). reflexivity.
Qed.

Lemma isLocalPath_orb (path : string) :
  isLocalPath path
  = ((path =? ".") || (path =? "..")
     || (HasPrefix path "./" || HasPrefix path "../")
     || ((path =? "~") || HasPrefix path "~/" || HasPrefix path "~\")
     || HasPrefix path "/"
     || (HasPrefix path "\"
         || ((2 <=? String.length path)%nat && Ascii.eqb (byteAt path 1) ":"))).
Proof.
  unfold isLocalPath.
  destruct ((path =? ".") || (path =? "..")); [reflexivity|].
  destruct (HasPrefix path "./" || HasPrefix path "../"); [reflexivity|].
  destruct ((path =? "~") || HasPrefix path "~/" || HasPrefix path "~\");
    [reflexivity|].
  destruct (HasPrefix path "/"); [reflexivity|].
  destruct (HasPrefix path "\"
            || ((2 <=? String.length path)%nat && Ascii.eqb (byteAt path 1) ":"));
    reflexivity.
Qed.

(** X8. The explicit local forms, in full: [isLocalPath] accepts an
    input exactly when it is ["."], [".."] or ["~"], starts with ["./"],
    ["../"], ["/"], ["~/"], ["~\"] or a backslash, or has a colon as its
    second byte (a drive letter).  Each such input is classified not
    remote whatever the filesystem and the parser say; in particular a
    URL with a one-letter scheme is taken for a drive path. *)
Theorem X8_explicit_local_forms_in_full (path : string) :
  (isLocalPath path = true
   <-> explicitLocalForm path
       \/ HasPrefix path "\" = true
       \/ exists c rest, path = String c (String ":" rest))
  /\ (isLocalPath path = true ->
      forall url_Parse fs,
        detectRemoteRepo url_Parse fs path = (false, "", RepoTypeUnknown)).
Proof.
  split; [|intros H url_Parse fs; now apply detect_local].
  rewrite isLocalPath_orb. unfold explicitLocalForm.
  rewrite !orb_true_iff, !String.eqb_eq, second_byte_colon. tauto.
Qed.

(** X8, at the one-letter scheme [c://huggingface.co/org/repo], which
    Go's parser would accept. *)
Lemma X8_explicit_local_forms_in_full_witness :
  ParseHuggingFaceRepo url.Parse "c://huggingface.co/org/repo"
  = ("org/repo", RepoTypeModel, None)
  /\ detectRemoteRepo url.Parse emptyFS "c://huggingface.co/org/repo"
     = (false, "", RepoTypeUnknown).
Proof.
  split; [vm_compute; reflexivity|].
  apply (proj2 (X8_explicit_local_forms_in_full "c://huggingface.co/org/repo")).
  apply (proj2 (proj1 (X8_explicit_local_forms_in_full
                         "c://huggingface.co/org/repo"))).
  right. right. now exists "c"%char, "//huggingface.co/org/repo".
Defined.

(** X9. For an identifier [owner/name] whose two parts hold no slash,
    the package is: name, the override or else [name]; description, the
    override; authors, the override alone or else [owner] alone. With no
    override the author and the name, joined by a slash, give the
    identifier back. *)
Theorem X9_defaults_of_two_segment_identifier
  (owner name n d a : string) :
  Contains owner "/" = false ->
  Contains name "/" = false ->
  buildPackageFromRepo (owner ++ "/" ++ name) n d a
  = mkPackage (if n =? "" then name else n) d
              [if a =? "" then owner else a].
Proof.
  intros Ho Hn. apply Contains_byte_Count in Ho, Hn.
  unfold buildPackageFromRepo.
  change (owner ++ "/" ++ name) with (owner ++ String "/" name).
  rewrite (Split_app_sep "/" owner name Ho), (Split_no_sep "/" name Hn).
  unfold setName, setDescription, setAuthors, zeroPackage. simpl.
  destruct (n =? ""), (d =? "") eqn:Hd, (a =? ""); simpl; try reflexivity;
    apply String.eqb_eq in Hd; now subst.
Qed.

(** X9, at ["myorg/mymodel"] with the author overridden. *)
Lemma X9_defaults_of_two_segment_identifier_witness :
  buildPackageFromRepo "myorg/mymodel" "" "" "custom-author"
  = mkPackage "mymodel" "" ["custom-author"].
Proof.
  apply (X9_defaults_of_two_segment_identifier
           "myorg" "mymodel" "" "" "custom-author"); reflexivity.
Defined.

Lemma Authors_buildPackageFromRepo (repo name description author : string) :
  Authors (buildPackageFromRepo repo name description author)
  = if negb (author =? "") then [author]
    else if (2 <=? List.length (Split repo "/"))%nat
         then [nth (List.length (Split repo "/") - 2) (Split repo "/") ""]
         else [].
Proof.
  unfold buildPackageFromRepo, setName, setDescription, setAuthors, zeroPackage.
  destruct (name =? ""), (2 <=? List.length (Split repo "/"))%nat,
    (description =? ""), (author =? ""); reflexivity.
Qed.

(** X10. The package has at most one author, and has none exactly when
    no author is given and the identifier holds no slash. *)
Theorem X10_authors_at_most_one (repo name description author : string) :
  List.length (Authors (buildPackageFromRepo repo name description author)) <= 1
  /\ (Authors (buildPackageFromRepo repo name description author) = []
      <-> author = "" /\ Contains repo "/" = false).
Proof.
  rewrite Authors_buildPackageFromRepo, Contains_byte_Count.
  pose proof (Split_length "/" repo) as HL.
  destruct (author =? "") eqn:Ea; cbn [negb].
  - apply String.eqb_eq in Ea.
    destruct (2 <=? List.length (Split repo "/"))%nat eqn:E2; cbn [List.length].
    + apply Nat.leb_le in E2. split; [lia|]. split; [discriminate|].
      intros [_ H]. lia.
    + apply Nat.leb_gt in E2. split; [lia|]. split; [|reflexivity].
      intros _. split; [exact Ea|lia].
  - apply String.eqb_neq in Ea. cbn [List.length].
    split; [lia|]. split; [discriminate|].
    intros [H _]. contradiction.
Qed.

(** X11. The package of a local run is absent exactly when no name, no
    description and no author is given; otherwise it is the package a
    remote run builds from an identifier without segments: the given
    values and nothing derived. *)
Theorem X11_local_package (opts : initOptions) :
  (localModelPackage opts = None
   <-> modelkitName opts = "" /\ modelkitDescription opts = ""
       /\ modelkitAuthor opts = "")
  /\ (localModelPackage opts <> None ->
      localModelPackage opts
      = Some (buildPackageFromRepo "" (modelkitName opts)
                (modelkitDescription opts) (modelkitAuthor opts))).
Proof.
  unfold localModelPackage, buildPackageFromRepo, setName, setDescription,
    setAuthors, zeroPackage.
  destruct (modelkitName opts) as [|c1 n] eqn:En;
    destruct (modelkitDescription opts) as [|c2 d] eqn:Ed;
    destruct (modelkitAuthor opts) as [|c3 a] eqn:Ea; simpl;
    (split; [split; [intros H; try discriminate; auto
                    |intros (H1 & H2 & H3); try discriminate; reflexivity]
            |intros H; try reflexivity; contradiction]).
Qed.

(** X10, at the one-segment identifier ["mymodel"] with no author. *)
Lemma X10_authors_at_most_one_witness :
  Authors (buildPackageFromRepo "mymodel" "" "" "") = [].
Proof.
  apply (proj2 (proj2 (X10_authors_at_most_one "mymodel" "" "" ""))).
  split; reflexivity.
Defined.

(** X11, at options that give a name only. *)
Lemma X11_local_package_witness :
  localModelPackage
    (mkInitOptions "." "" "mymodel" "" "" false "main" "" "" false ""
       RepoTypeUnknown)
  = Some (mkPackage "mymodel" "" []).
Proof.
  apply (proj2 (X11_local_package
                  (mkInitOptions "." "" "mymodel" "" "" false "main" "" ""
                     false "" RepoTypeUnknown))).
  discriminate.
Defined.

(* ================================================================== *)
(** * Properties of the command: what a run writes and prints *)
(* ================================================================== *)

(** One prompt keeps what was given. *)
Lemma givenValuesKept_refl (o : initOptions) : givenValuesKept o o.
Proof. unfold givenValuesKept, sameFlags. tauto. Qed.

Lemma givenValuesKept_trans (a b c : initOptions) :
  givenValuesKept a b -> givenValuesKept b c -> givenValuesKept a c.
Proof.
  unfold givenValuesKept, sameFlags.
  intros (P1 & P2 & (F1 & F2 & F3 & F4) & P3 & P4 & P5 & N1 & D1 & A1)
         (Q1 & Q2 & (G1 & G2 & G3 & G4) & Q3 & Q4 & Q5 & N2 & D2 & A2).
  repeat split; try congruence.
  - intros H. rewrite <- (N1 H). apply N2. now rewrite (N1 H).
  - intros H. rewrite <- (D1 H). apply D2. now rewrite (D1 H).
  - intros H. rewrite <- (A1 H). apply A2. now rewrite (A1 H).
Qed.

Lemma setModelkitName_kept (o : initOptions) (v : string) :
  modelkitName o = "" -> givenValuesKept o (setModelkitName o v).
Proof. unfold givenValuesKept, sameFlags. simpl. intuition congruence. Qed.

Lemma setModelkitDescription_kept (o : initOptions) (v : string) :
  modelkitDescription o = "" -> givenValuesKept o (setModelkitDescription o v).
Proof. unfold givenValuesKept, sameFlags. simpl. intuition congruence. Qed.

Lemma setModelkitAuthor_kept (o : initOptions) (v : string) :
  modelkitAuthor o = "" -> givenValuesKept o (setModelkitAuthor o v).
Proof. unfold givenValuesKept, sameFlags. simpl. intuition congruence. Qed.

Lemma setModelkitDescription_same (o : initOptions) :
  setModelkitDescription o (modelkitDescription o) = o.
Proof. now destruct o. Qed.

Lemma kept_consistent (a b : initOptions) :
  givenValuesKept a b -> computedConsistent a -> computedConsistent b.
Proof.
  unfold givenValuesKept, computedConsistent.
  intros (_ & _ & _ & -> & -> & -> & _). auto.
Qed.

Lemma isRemote_setDetected (o : initOptions)
  (d : bool * string * RepositoryType) :
  isRemote (setDetected o d) = fst (fst d).
Proof. now destruct d as [[b r] ty]. Qed.

Lemma flags_setDetected (o : initOptions) (p cfg : string)
  (d : bool * string * RepositoryType) :
  sameFlags o (setDetected (setPath (setConfigHome o cfg) p) d)
  /\ modelkitName (setDetected (setPath (setConfigHome o cfg) p) d)
     = modelkitName o
  /\ modelkitDescription (setDetected (setPath (setConfigHome o cfg) p) d)
     = modelkitDescription o
  /\ modelkitAuthor (setDetected (setPath (setConfigHome o cfg) p) d)
     = modelkitAuthor o.
Proof. destruct d as [[b r] ty]. unfold sameFlags. simpl. tauto. Qed.

Section CommandProperties.

Variables DirectoryListing KitFile goError Terminal : Set.
Variable DefaultKitfileName : string.
Variable filepath_Join : string -> string -> string.
Variable UserHomeDir : string + goError.
Variable ctxConfig : option string.
Variable DirectoryListingFromFS : string -> DirectoryListing + goError.
Variable ListFiles :
  string -> string -> string -> RepositoryType -> DirectoryListing + goError.
Variable GenerateKitfile : DirectoryListing -> option Package -> KitFile + goError.
Variable MarshalToYAML : KitFile -> string + goError.
Variable WriteFileResult : string -> string -> option os.Errno.
Variable IsInteractiveSession : Terminal -> bool.
Variable stdoutIsTerminal : Terminal -> bool.
Variable PromptForInput :
  string -> bool -> Terminal -> (string + goError) * Terminal.
Variable url_Parse : string -> url.URL + url.Error.
Variable fs : os.FileSystem.

Local Abbreviation kitfilePath :=
  (localKitfilePath DefaultKitfileName filepath_Join).
Local Abbreviation runLocal :=
  (runLocalInit DirectoryListing KitFile goError DefaultKitfileName
     filepath_Join DirectoryListingFromFS GenerateKitfile MarshalToYAML
     WriteFileResult fs).
Local Abbreviation runRemote :=
  (runRemoteInit DirectoryListing KitFile goError ListFiles GenerateKitfile
     MarshalToYAML WriteFileResult fs).
Local Abbreviation completeL :=
  (completeLocal goError Terminal IsInteractiveSession PromptForInput).
Local Abbreviation completeR :=
  (completeRemote goError Terminal IsInteractiveSession stdoutIsTerminal
     PromptForInput).
Local Abbreviation completeAll :=
  (complete goError Terminal filepath_Join UserHomeDir ctxConfig
     IsInteractiveSession stdoutIsTerminal PromptForInput url_Parse fs).
Local Abbreviation run :=
  (runCommand DirectoryListing KitFile goError Terminal DefaultKitfileName
     filepath_Join UserHomeDir ctxConfig DirectoryListingFromFS ListFiles
     GenerateKitfile MarshalToYAML WriteFileResult IsInteractiveSession
     stdoutIsTerminal PromptForInput url_Parse fs).

(** The three shapes of a local run: nothing done and an error; one
    failed write; one write and two reports. *)
Lemma runLocalInit_outcomes (opts : initOptions) :
  (fst (runLocal opts) = [] /\ snd (runLocal opts) <> None)
  \/ (writeAllowed fs (overwrite opts) (kitfilePath opts) = true
      /\ exists bytes,
           (exists err,
               runLocal opts
               = ([WriteFile (kitfilePath opts) bytes],
                  Some (FailedToWriteKitfile goError err)))
           \/ runLocal opts
              = ([WriteFile (kitfilePath opts) bytes;
                  Infof (GeneratedKitfile bytes);
                  Infof (SavedToPath (kitfilePath opts))], None)).
Proof.
  unfold runLocalInit, writeAllowed.
  destruct (os.Stat fs (kitfilePath opts)) as [e|];
    [destruct (os.IsNotExist e)|destruct (overwrite opts)]; simpl;
    try (left; split; [reflexivity|discriminate]);
    (destruct (DirectoryListingFromFS (path opts)) as [dir|err];
     [|left; split; [reflexivity|discriminate]];
     destruct (GenerateKitfile dir (localModelPackage opts)) as [k|err];
     [|left; split; [reflexivity|discriminate]];
     destruct (MarshalToYAML k) as [bytes|err];
     [|left; split; [reflexivity|discriminate]];
     right; split; [reflexivity|]; exists bytes;
     destruct (WriteFileResult (kitfilePath opts) bytes) as [err|];
     [left; now exists err|now right]).
Qed.

(** X12. A local run tries at most one write; it is at the Kitfile path
    (the [--output] path, or [Kitfile] joined to the directory), and
    only when that name did not exist or [--force] was given.  An
    existing Kitfile without [--force], or a stat failure other than
    "does not exist", ends the run before anything is done. *)
Theorem X12_local_run_write_guard (opts : initOptions) :
  List.length (writeTargets (fst (runLocal opts))) <= 1
  /\ (forall name,
         In name (writeTargets (fst (runLocal opts))) ->
         name = kitfilePath opts
         /\ writeAllowed fs (overwrite opts) name = true)
  /\ (writeAllowed fs (overwrite opts) (kitfilePath opts) = false ->
      fst (runLocal opts) = [] /\ snd (runLocal opts) <> None).
Proof.
  destruct (runLocalInit_outcomes opts)
    as [[Ht He]|[Hw (bytes & [(err & E)|E])]].
  - rewrite Ht. simpl. split; [lia|]. split; [intros name []|auto].
  - rewrite E. simpl. split; [lia|]. split; [|congruence].
    intros name [<-|[]]. auto.
  - rewrite E. simpl. split; [lia|]. split; [|congruence].
    intros name [<-|[]]. auto.
Qed.

(** The shapes of a remote run. *)
Lemma runRemoteInit_outcomes (opts : initOptions) :
  let fetching := FetchingFileListing (repo opts) (repoRef opts) in
  (outputPath opts = ""
   /\ ((fst (runRemote opts) = [SystemInfof fetching]
        /\ snd (runRemote opts) <> None)
       \/ exists bytes,
            runRemote opts = ([SystemInfof fetching; Print bytes], None)))
  \/ (outputPath opts <> ""
      /\ ((fst (runRemote opts) = [Infof fetching]
           /\ snd (runRemote opts) <> None)
          \/ (writeAllowed fs (overwrite opts) (outputPath opts) = true
              /\ exists bytes,
                   (exists err,
                       runRemote opts
                       = ([Infof fetching; WriteFile (outputPath opts) bytes],
                          Some (FailedToWriteKitfile goError err)))
                   \/ runRemote opts
                      = ([Infof fetching; WriteFile (outputPath opts) bytes;
                          Infof (GeneratedKitfile bytes);
                          Infof (SavedToPath (outputPath opts))], None)))).
Proof.
  intros fetching. unfold runRemoteInit, writeAllowed. fold fetching.
  destruct (outputPath opts =? "") eqn:Eo.
  - apply String.eqb_eq in Eo. left. split; [exact Eo|].
    destruct (ListFiles (repo opts) (repoRef opts) (token opts) (repoType opts))
      as [dir|err]; [|left; split; [reflexivity|discriminate]].
    destruct (GenerateKitfile dir _) as [k|err];
      [|left; split; [reflexivity|discriminate]].
    destruct (MarshalToYAML k) as [bytes|err];
      [|left; split; [reflexivity|discriminate]].
    right. now exists bytes.
  - apply String.eqb_neq in Eo. right. split; [exact Eo|].
    destruct (ListFiles (repo opts) (repoRef opts) (token opts) (repoType opts))
      as [dir|err]; [|left; split; [reflexivity|discriminate]].
    destruct (GenerateKitfile dir _) as [k|err];
      [|left; split; [reflexivity|discriminate]].
    destruct (MarshalToYAML k) as [bytes|err];
      [|left; split; [reflexivity|discriminate]].
    simpl negb. cbv iota.
    destruct (os.Stat fs (outputPath opts)) as [e|];
      [destruct (os.IsNotExist e)|destruct (overwrite opts)]; simpl;
      try (left; split; [reflexivity|discriminate]);
      (right; split; [reflexivity|]; exists bytes;
       destruct (WriteFileResult (outputPath opts) bytes) as [err|];
       [left; now exists err|now right]).
Qed.


(** X14. A remote run tries at most one write; it is at the [--output]
    path, which is then not empty, and only when that name did not exist
    or [--force] was given. *)
Theorem X14_remote_run_write_guard (opts : initOptions) :
  List.length (writeTargets (fst (runRemote opts))) <= 1
  /\ (forall name,
         In name (writeTargets (fst (runRemote opts))) ->
         name = outputPath opts /\ name <> ""
         /\ writeAllowed fs (overwrite opts) name = true).
Proof.
  destruct (runRemoteInit_outcomes opts)
    as [[_ [[Ht He]|(bytes & E)]]
       |[Hne [[Ht He]|[Hw (bytes & [(err & E)|E])]]]].
  - rewrite Ht. simpl. split; [lia|intros name []].
  - rewrite E. simpl. split; [lia|intros name []].
  - rewrite Ht. simpl. split; [lia|intros name []].
  - rewrite E. simpl. split; [lia|]. intros name [<-|[]]. auto.
  - rewrite E. simpl. split; [lia|]. intros name [<-|[]]. auto.
Qed.

(** A prompt step either leaves options and terminal alone (the field
    was given), or asks once. *)
Lemma promptIfEmpty_cases
  (get : initOptions -> string) (set : initOptions -> string -> initOptions)
  (prompt : string) (o : initOptions) (t : Terminal) :
  (get o <> ""
   /\ promptIfEmpty goError Terminal PromptForInput get set prompt (o, t)
      = inl (o, t))
  \/ (get o = ""
      /\ ((exists answer,
              PromptForInput prompt false t = (inl answer, snd (PromptForInput prompt false t))
              /\ promptIfEmpty goError Terminal PromptForInput get set prompt (o, t)
                 = inl (set o answer, snd (PromptForInput prompt false t)))
          \/ exists err,
               promptIfEmpty goError Terminal PromptForInput get set prompt (o, t)
               = inr (o, err, snd (PromptForInput prompt false t)))).
Proof.
  unfold promptIfEmpty.
  destruct (get o =? "") eqn:E.
  - apply String.eqb_eq in E. right. split; [exact E|].
    destruct (PromptForInput prompt false t) as [[answer|err] t']; simpl.
    + left. now exists answer.
    + right. now exists err.
  - apply String.eqb_neq in E. left. now split.
Qed.

Lemma completeLocal_kept (opts : initOptions) (t : Terminal) :
  givenValuesKept opts (fst (fst (completeL opts t))).
Proof.
  unfold completeLocal.
  destruct (IsInteractiveSession t); [|apply givenValuesKept_refl].
  destruct (promptIfEmpty_cases modelkitName setModelkitName
              "Enter a name for the ModelKit: " opts t)
    as [[_ E]|[Hn [(a1 & _ & E)|(e1 & E)]]]; rewrite E; clear E;
    [ set (o1 := opts); set (t1 := t);
      assert (K1 : givenValuesKept opts o1) by apply givenValuesKept_refl
    | set (o1 := setModelkitName opts a1);
      set (t1 := snd (PromptForInput "Enter a name for the ModelKit: " false t));
      assert (K1 : givenValuesKept opts o1) by now apply setModelkitName_kept
    | simpl; apply givenValuesKept_refl ];
    (destruct (promptIfEmpty_cases modelkitDescription setModelkitDescription
                 "Enter a short description for the ModelKit: " o1 t1)
       as [[_ E]|[Hd [(a2 & _ & E)|(e2 & E)]]]; rewrite E; clear E;
     [ set (o2 := o1); set (t2 := t1);
       assert (K2 : givenValuesKept opts o2) by exact K1
     | set (o2 := setModelkitDescription o1 a2);
       set (t2 := snd (PromptForInput
                         "Enter a short description for the ModelKit: " false t1));
       assert (K2 : givenValuesKept opts o2)
         by (eapply givenValuesKept_trans;
             [exact K1|now apply setModelkitDescription_kept])
     | simpl; exact K1 ]);
    (destruct (promptIfEmpty_cases modelkitAuthor setModelkitAuthor
                 "Enter an author for the ModelKit: " o2 t2)
       as [[_ E]|[Ha [(a3 & _ & E)|(e3 & E)]]]; rewrite E; clear E; simpl;
     [ exact K2
     | eapply givenValuesKept_trans;
       [exact K2|now apply setModelkitAuthor_kept]
     | exact K2 ]).
Qed.

(** X15. [completeLocal] keeps what was given: a name, a description or
    an author that is not empty is never replaced by a prompt, and no
    other field changes, whatever is typed and whether or not a prompt
    fails.  Outside an interactive session, or when all three are
    given, nothing is asked: options and terminal are returned as they
    were, without error. *)
Theorem X15_completeLocal_keeps_given_values (opts : initOptions) (t : Terminal) :
  givenValuesKept opts (fst (fst (completeL opts t)))
  /\ (IsInteractiveSession t = false
      \/ (modelkitName opts <> "" /\ modelkitDescription opts <> ""
          /\ modelkitAuthor opts <> "") ->
      completeL opts t = (opts, None, t)).
Proof.
  split; [apply completeLocal_kept|].
  unfold completeLocal, promptIfEmpty.
  intros [H|(Hn & Hd & Ha)].
  - now rewrite H.
  - apply String.eqb_neq in Hn, Hd, Ha.
    destruct (IsInteractiveSession t); [|reflexivity].
    rewrite Hn, Hd, Ha. reflexivity.
Qed.

Lemma completeRemote_description_only (opts : initOptions) (t : Terminal) :
  fst (fst (completeR opts t))
  = setModelkitDescription opts
      (modelkitDescription (fst (fst (completeR opts t))))
  /\ (modelkitDescription opts <> "" ->
      modelkitDescription (fst (fst (completeR opts t)))
      = modelkitDescription opts).
Proof.
  unfold completeRemote.
  destruct (IsInteractiveSession t && stdoutIsTerminal t
            && (outputPath opts =? ""));
    [|simpl; split; [now rewrite setModelkitDescription_same|reflexivity]].
  destruct (promptIfEmpty_cases modelkitDescription setModelkitDescription
              "Enter a short description for the ModelKit: " opts t)
    as [[_ E]|[Hd [(a & _ & E)|(e & E)]]]; rewrite E; simpl.
  - split; [now rewrite setModelkitDescription_same|reflexivity].
  - split; [reflexivity|]. intros H. contradiction.
  - split; [now rewrite setModelkitDescription_same|reflexivity].
Qed.

Lemma completeRemote_kept (opts : initOptions) (t : Terminal) :
  givenValuesKept opts (fst (fst (completeR opts t))).
Proof.
  destruct (completeRemote_description_only opts t) as [E Hd].
  rewrite E. unfold givenValuesKept, sameFlags. simpl.
  repeat split; try reflexivity. exact Hd.
Qed.

(** X16. [completeRemote] can change the description and nothing else:
    it never asks for a name or an author.  It asks nothing at all, and
    leaves the terminal untouched, when the session is not interactive,
    when stdout is not a terminal, when [--output] is given, or when a
    description is given. *)
Theorem X16_completeRemote_asks_for_description_only
  (opts : initOptions) (t : Terminal) :
  fst (fst (completeR opts t))
  = setModelkitDescription opts
      (modelkitDescription (fst (fst (completeR opts t))))
  /\ (IsInteractiveSession t = false \/ stdoutIsTerminal t = false
      \/ outputPath opts <> "" \/ modelkitDescription opts <> "" ->
      completeR opts t = (opts, None, t)).
Proof.
  split; [apply completeRemote_description_only|].
  unfold completeRemote, promptIfEmpty.
  intros [H|[H|[H|H]]].
  - now rewrite H.
  - rewrite H. now rewrite andb_false_r.
  - apply String.eqb_neq in H. rewrite H. now rewrite andb_false_r.
  - apply String.eqb_neq in H. rewrite H.
    now destruct (IsInteractiveSession t && stdoutIsTerminal t
                  && (outputPath opts =? "")).
Qed.

(** *** Completion as a whole *)

Lemma setDetected_consistent (o : initOptions) (p : string) :
  computedConsistent (setDetected o (detectRemoteRepo url_Parse fs p)).
Proof.
  unfold computedConsistent.
  destruct (detect_cases url_Parse fs p) as [E|(r & ty & e & _ & _ & P & E)];
    rewrite E; simpl.
  - split; [auto|discriminate].
  - split; [discriminate|]. intros _.
    exact (parse_success_shape url_Parse p r ty P).
Qed.

(** The three ways completion ends: no configuration in the context;
    no home directory for a tilde form; or classification of the
    (expanded) path [p] followed by the prompts. *)
Lemma complete_outcomes (opts : initOptions) (arg : string) (t : Terminal) :
  (ctxConfig = None
   /\ completeAll opts arg t = (opts, Some (ConfigPathNotSet goError), t))
  \/ (exists cfg err,
         isTildeForm arg = true
         /\ completeAll opts arg t
            = (setPath (setConfigHome opts cfg) arg,
               Some (Collaborator goError err), t))
  \/ (exists cfg p,
         ctxConfig = Some cfg
         /\ (isTildeForm arg = false -> p = arg)
         /\ givenValuesKept
              (setDetected (setPath (setConfigHome opts cfg) p)
                 (detectRemoteRepo url_Parse fs p))
              (fst (fst (completeAll opts arg t)))).
Proof.
  unfold complete.
  destruct ctxConfig as [cfg|]; [|now left].
  right. cbn [path setPath setConfigHome].
  fold (isTildeForm arg).
  assert (Step : forall o p,
             o = setPath (setConfigHome opts cfg) p ->
             givenValuesKept
               (setDetected o (detectRemoteRepo url_Parse fs p))
               (fst (fst
                  (let '(opts', err, t') :=
                     if isRemote (setDetected o (detectRemoteRepo url_Parse fs (path o)))
                     then completeR (setDetected o (detectRemoteRepo url_Parse fs (path o))) t
                     else completeL (setDetected o (detectRemoteRepo url_Parse fs (path o))) t in
                   (opts', option_map (Collaborator goError) err, t'))))).
  { intros o p ->. cbn [path setPath setConfigHome].
    set (o3 := setDetected _ _).
    destruct (isRemote o3).
    - pose proof (completeRemote_kept o3 t) as K.
      destruct (completeR o3 t) as [[o' e] t']. exact K.
    - pose proof (completeLocal_kept o3 t) as K.
      destruct (completeL o3 t) as [[o' e] t']. exact K. }
  destruct (isTildeForm arg) eqn:Et.
  - destruct UserHomeDir as [home|err].
    + right. exists cfg.
      destruct (arg =? "~").
      * exists home. split; [reflexivity|]. split; [discriminate|].
        now apply (Step _ home).
      * exists (filepath_Join home (drop 2 arg)).
        split; [reflexivity|]. split; [discriminate|].
        now apply (Step _ (filepath_Join home (drop 2 arg))).
    + left. now exists cfg, err.
  - right. exists cfg, arg. split; [reflexivity|]. split; [reflexivity|].
    now apply (Step _ arg).
Qed.

(** X17. Completion never touches the flags [--force], [--ref],
    [--token] and [--output], never replaces a given name, description
    or author, and leaves the computed fields consistent: not remote
    with the empty identifier and the Unknown kind, or remote with a
    non-empty identifier and the kind Model or Dataset.  This holds for
    every outcome, a failed prompt or a missing home directory
    included. *)
Theorem X17_complete_keeps_flags_and_is_consistent
  (opts : initOptions) (arg : string) (t : Terminal) :
  computedConsistent opts ->
  sameFlags opts (fst (fst (completeAll opts arg t)))
  /\ (modelkitName opts <> "" ->
      modelkitName (fst (fst (completeAll opts arg t))) = modelkitName opts)
  /\ (modelkitDescription opts <> "" ->
      modelkitDescription (fst (fst (completeAll opts arg t)))
      = modelkitDescription opts)
  /\ (modelkitAuthor opts <> "" ->
      modelkitAuthor (fst (fst (completeAll opts arg t))) = modelkitAuthor opts)
  /\ computedConsistent (fst (fst (completeAll opts arg t))).
Proof.
  intros Hc.
  destruct (complete_outcomes opts arg t)
    as [[_ E]|[(cfg & err & _ & E)|(cfg & p & _ & _ & K)]].
  - rewrite E. cbn [fst].
    split; [apply givenValuesKept_refl|].
    do 3 (split; [intros _; reflexivity|]). exact Hc.
  - rewrite E. cbn [fst].
    split; [exact (proj1 (flags_setDetected opts arg cfg (isRemote opts, repo opts, repoType opts)))|].
    do 3 (split; [intros _; reflexivity|]). exact Hc.
  - pose proof (setDetected_consistent (setPath (setConfigHome opts cfg) p) p)
      as C3.
    pose proof (kept_consistent _ _ K C3) as C'.
    destruct (flags_setDetected opts p cfg (detectRemoteRepo url_Parse fs p))
      as ((F1 & F2 & F3 & F4) & N3 & D3 & A3).
    destruct K as (_ & _ & (G1 & G2 & G3 & G4) & _ & _ & _ & KN & KD & KA).
    split; [unfold sameFlags; repeat split; congruence|].
    split; [intros H; rewrite <- N3; apply KN; now rewrite N3|].
    split; [intros H; rewrite <- D3; apply KD; now rewrite D3|].
    split; [intros H; rewrite <- A3; apply KA; now rewrite A3|].
    exact C'.
Qed.

Lemma local_run_trace (opts : initOptions) :
  announcesFetch (fst (runLocal opts)) = false
  /\ forall name,
       In name (writeTargets (fst (runLocal opts))) ->
       name = kitfilePath opts
       /\ writeAllowed fs (overwrite opts) name = true.
Proof.
  destruct (runLocalInit_outcomes opts)
    as [[Ht He]|[Hw (bytes & [(err & E)|E])]].
  - rewrite Ht. simpl. split; [reflexivity|intros name []].
  - rewrite E. simpl. split; [reflexivity|]. intros name [<-|[]]. auto.
  - rewrite E. simpl. split; [reflexivity|]. intros name [<-|[]]. auto.
Qed.

Lemma remote_run_trace (opts : initOptions) :
  forall name,
    In name (writeTargets (fst (runRemote opts))) ->
    name = outputPath opts /\ writeAllowed fs (overwrite opts) name = true.
Proof.
  destruct (runRemoteInit_outcomes opts)
    as [[_ [[Ht He]|(bytes & E)]]
       |[Hne [[Ht He]|[Hw (bytes & [(err & E)|E])]]]].
  - rewrite Ht. simpl. intros name [].
  - rewrite E. simpl. intros name [].
  - rewrite Ht. simpl. intros name [].
  - rewrite E. simpl. intros name [<-|[]]. auto.
  - rewrite E. simpl. intros name [<-|[]]. auto.
Qed.

(** X18. The whole command never overwrites without leave: whatever the
    argument, the terminal and the collaborators do, every write the
    command tries is at a name that did not exist when it was checked,
    or that existed with [--force] given; and with [--output] given, it
    is at that path. *)
Theorem X18_command_never_overwrites_without_force
  (opts : initOptions) (arg : string) (t : Terminal) (name : string) :
  In name (writeTargets (fst (run opts arg t))) ->
  writeAllowed fs (overwrite opts) name = true
  /\ (outputPath opts <> "" -> name = outputPath opts).
Proof.
  unfold runCommand.
  pose proof (complete_outcomes opts arg t) as H.
  destruct (completeAll opts arg t) as [[o' e] t'] eqn:E.
  destruct e as [err|]; [intros []|].
  destruct H as [[_ H]|[(cfg & err & _ & H)|(cfg & p & _ & _ & K)]];
    try discriminate.
  simpl in K.
  destruct (flags_setDetected opts p cfg (detectRemoteRepo url_Parse fs p))
    as ((F1 & _ & _ & F4) & _).
  destruct K as (_ & _ & (G1 & _ & _ & G4) & _).
  assert (Eo : overwrite o' = overwrite opts) by congruence.
  assert (Ep : outputPath o' = outputPath opts) by congruence.
  destruct (isRemote o').
  - intros Hin. apply remote_run_trace in Hin as [-> Hw].
    rewrite Eo, Ep in *. auto.
  - intros Hin. apply local_run_trace in Hin as [-> Hw].
    rewrite Eo in Hw. split; [exact Hw|].
    intros Hne. unfold localKitfilePath. rewrite Ep.
    apply String.eqb_neq in Hne. now rewrite Hne.
Qed.

(** X19. A local classification never reaches the remote repository:
    when the argument is not a tilde form and [detectRemoteRepo] says
    not remote for it, the command announces no fetch, whatever else
    happens. *)
Theorem X19_local_input_never_fetches
  (opts : initOptions) (arg : string) (t : Terminal) :
  isTildeForm arg = false ->
  fst (fst (detectRemoteRepo url_Parse fs arg)) = false ->
  announcesFetch (fst (run opts arg t)) = false.
Proof.
  intros Ht Hd. unfold runCommand.
  pose proof (complete_outcomes opts arg t) as H.
  destruct (completeAll opts arg t) as [[o' e] t'] eqn:E.
  destruct e as [err|]; [reflexivity|].
  destruct H as [[_ H]|[(cfg & err & _ & H)|(cfg & p & _ & Hp & K)]];
    try discriminate.
  simpl in K. rewrite (Hp Ht) in K.
  destruct K as (_ & _ & _ & R & _).
  rewrite isRemote_setDetected, Hd in R. rewrite R.
  apply local_run_trace.
Qed.

End CommandProperties.

(** *** The properties of the command in the example world *)

(** X12, at a directory whose Kitfile exists, without [--force]. *)
Lemma X12_local_run_write_guard_witness :
  writeAllowed (onlyFS "./Kitfile") false "./Kitfile" = false
  /\ fst (exampleRunLocal (onlyFS "./Kitfile")
            (setPath (flagOptions "" "" "" false "") ".")) = []
  /\ snd (exampleRunLocal (onlyFS "./Kitfile")
            (setPath (flagOptions "" "" "" false "") ".")) <> None.
Proof.
  split; [reflexivity|].
  exact (proj2 (proj2 (X12_local_run_write_guard (list string) string string
                         "Kitfile" exampleJoin (fun _ => exampleListing)
                         exampleGenerate exampleMarshal exampleWrite
                         (onlyFS "./Kitfile")
                         (setPath (flagOptions "" "" "" false "") ".")))
               eq_refl).
Defined.


(** X14, at a remote run with [--output out.yaml --force] over an
    existing file. *)
Lemma X14_remote_run_write_guard_witness :
  "out.yaml" = "out.yaml" /\ "out.yaml" <> ""
  /\ writeAllowed (onlyFS "out.yaml") true "out.yaml" = true.
Proof.
  exact (proj2 (X14_remote_run_write_guard (list string) string string
                  (fun _ _ _ _ => exampleListing) exampleGenerate
                  exampleMarshal exampleWrite (onlyFS "out.yaml")
                  (setDetected (flagOptions "" "" "" true "out.yaml")
                     (true, "myorg/mymodel", RepoTypeModel)))
               "out.yaml" (or_introl eq_refl)).
Defined.

(** X15, outside an interactive session. *)
Lemma X15_completeLocal_keeps_given_values_witness :
  exampleCompleteLocal (flagOptions "" "" "" false "") []
  = (flagOptions "" "" "" false "", None, []).
Proof.
  exact (proj2 (X15_completeLocal_keeps_given_values string (list string)
                  exampleInteractive examplePrompt
                  (flagOptions "" "" "" false "") [])
               (or_introl eq_refl)).
Defined.

(** X16, with [--output] given and an answer pending. *)
Lemma X16_completeRemote_asks_for_description_only_witness :
  exampleCompleteRemote (flagOptions "" "" "" false "out.yaml") ["typed"]
  = (flagOptions "" "" "" false "out.yaml", None, ["typed"]).
Proof.
  refine (proj2 (X16_completeRemote_asks_for_description_only string
                   (list string) exampleInteractive (fun _ => true)
                   examplePrompt (flagOptions "" "" "" false "out.yaml")
                   ["typed"]) _).
  right. right. left. discriminate.
Defined.

Lemma flagOptions_consistent (name desc author : string) (force : bool)
  (output : string) :
  computedConsistent (flagOptions name desc author force output).
Proof. split; simpl; [auto|discriminate]. Qed.

(** X17, at the argument [myorg/mymodel] with a name given and two
    answers pending. *)
Lemma X17_complete_keeps_flags_and_is_consistent_witness :
  computedConsistent
    (fst (fst (exampleComplete emptyFS (flagOptions "given" "" "" false "")
                 "myorg/mymodel" ["typed"; "more"]))).
Proof.
  exact (proj2 (proj2 (proj2 (proj2
           (X17_complete_keeps_flags_and_is_consistent string (list string)
              exampleJoin (inl "/home/u") (Some "/home/u/.kitops")
              exampleInteractive (fun _ => true) examplePrompt url.Parse
              emptyFS (flagOptions "given" "" "" false "")
              "myorg/mymodel" ["typed"; "more"]
              (flagOptions_consistent "given" "" "" false "")))))).
Defined.

(** X18, at [kit init myorg/mymodel --output out.yaml] with no such
    file. *)
Lemma X18_command_never_overwrites_without_force_witness :
  writeAllowed emptyFS false "out.yaml" = true
  /\ ("out.yaml" <> "" -> "out.yaml" = "out.yaml").
Proof.
  refine (X18_command_never_overwrites_without_force (list string) string
            string (list string) "Kitfile" exampleJoin (inl "/home/u")
            (Some "/home/u/.kitops") (fun _ => exampleListing)
            (fun _ _ _ _ => exampleListing) exampleGenerate exampleMarshal
            exampleWrite exampleInteractive (fun _ => true) examplePrompt
            url.Parse emptyFS (flagOptions "" "" "" false "out.yaml")
            "myorg/mymodel" [] "out.yaml" _).
  vm_compute. left. reflexivity.
Defined.

(** X19, at [kit init .]. *)
Lemma X19_local_input_never_fetches_witness :
  announcesFetch
    (fst (exampleRun emptyFS (flagOptions "" "" "" false "") "." [])) = false.
Proof.
  exact (X19_local_input_never_fetches (list string) string
           string (list string) "Kitfile" exampleJoin (inl "/home/u")
           (Some "/home/u/.kitops") (fun _ => exampleListing)
           (fun _ _ _ _ => exampleListing) exampleGenerate exampleMarshal
           exampleWrite exampleInteractive (fun _ => true) examplePrompt
           url.Parse emptyFS (flagOptions "" "" "" false "") "." []
           eq_refl eq_refl).
Defined.

(* ================================================================== *)
(** * The path after completion, and the repository's test tables *)
(* ================================================================== *)

Section CompletePath.

Variables goError Terminal : Set.
Variable filepath_Join : string -> string -> string.
Variable IsInteractiveSession : Terminal -> bool.
Variable stdoutIsTerminal : Terminal -> bool.
Variable PromptForInput :
  string -> bool -> Terminal -> (string + goError) * Terminal.
Variable url_Parse : string -> url.URL + url.Error.
Variable fs : os.FileSystem.

(** Classification and prompts leave the path alone. *)
Lemma classify_and_prompt_keep_path (o : initOptions) (t : Terminal) :
  path (fst (fst
    (let '(opts', err, t') :=
       if isRemote (setDetected o (detectRemoteRepo url_Parse fs (path o)))
       then completeRemote goError Terminal IsInteractiveSession
              stdoutIsTerminal PromptForInput
              (setDetected o (detectRemoteRepo url_Parse fs (path o))) t
       else completeLocal goError Terminal IsInteractiveSession PromptForInput
              (setDetected o (detectRemoteRepo url_Parse fs (path o))) t in
     (opts', option_map (Collaborator goError) err, t'))))
  = path o.
Proof.
  set (o3 := setDetected o (detectRemoteRepo url_Parse fs (path o))).
  assert (P3 : path o3 = path o).
  { unfold o3. now destruct (detectRemoteRepo url_Parse fs (path o)) as [[b r] ty]. }
  destruct (isRemote o3).
  - pose proof (completeRemote_kept goError Terminal IsInteractiveSession
                  stdoutIsTerminal PromptForInput o3 t) as (K & _).
    destruct (completeRemote goError Terminal IsInteractiveSession
                stdoutIsTerminal PromptForInput o3 t) as [[o' e] t'].
    simpl in *. congruence.
  - pose proof (completeLocal_kept goError Terminal IsInteractiveSession
                  PromptForInput o3 t) as (K & _).
    destruct (completeLocal goError Terminal IsInteractiveSession
                PromptForInput o3 t) as [[o' e] t'].
    simpl in *. congruence.
Qed.

(** X20. Tilde expansion.  With a configuration in the context and a
    home directory [home], the path after completion is [home] for the
    argument ["~"], [filepath.Join(home, rest)] for an argument ["~/"]
    or ["~\"] followed by [rest], and the argument itself in every other
    case (["~user/x"] included); the prompts that follow do not change
    it. *)
Theorem X20_complete_expands_tilde
  (cfg home : string) (opts : initOptions) (arg : string) (t : Terminal) :
  path (fst (fst (complete goError Terminal filepath_Join (inl home) (Some cfg)
                    IsInteractiveSession stdoutIsTerminal PromptForInput
                    url_Parse fs opts arg t)))
  = if isTildeForm arg
    then if arg =? "~" then home else filepath_Join home (drop 2 arg)
    else arg.
Proof.
  unfold complete. cbn [path setPath setConfigHome]. fold (isTildeForm arg).
  destruct (isTildeForm arg); [destruct (arg =? "~")|].
  - exact (classify_and_prompt_keep_path
             (setPath (setConfigHome opts cfg) home) t).
  - exact (classify_and_prompt_keep_path
             (setPath (setConfigHome opts cfg)
                (filepath_Join home (drop 2 arg))) t).
  - exact (classify_and_prompt_keep_path
             (setPath (setConfigHome opts cfg) arg) t).
Qed.

End CompletePath.

